(** * UIC: the verification / project / application / milestone workflow

    A shallow embedding of the workflow core of the UIC marketplace
    (Django views of [apps/accounts/views.py] and [apps/projects/views.py],
    models of [apps/accounts/models.py] and [apps/projects/models.py]).

    Tables are finite maps from primary keys to rows, the many-to-many
    relation [Project.assigned_students] is its join table, and a view is a
    computation over the database that may raise.  Rows keep the fields the
    workflow reads or writes; presentation fields (logos, bios, ...) are left
    out.  A request carries the time at which it is served, which is what
    every [timezone.now()] of that request returns; flash messages are given
    without the names interpolated into them. *)

From Stdlib Require Import ZArith String List Bool Lia Floats Uint63.
From stdpp Require Import gmap strings list fin_maps.

Local Open Scope Z_scope.
Local Open Scope string_scope.

(** ** Primary keys, clock values, request parameters *)

(** Django's [AutoField] primary key. *)
Abbreviation pk := Z (only parsing).

(** A point in time, as returned by [timezone.now()] / [datetime.now()]. *)
Abbreviation datetime := Z (only parsing).

(** ** Enumerations ([choices] of the models) *)

(** [User.USER_TYPES]. *)
Inductive UserType := student | company | university.

(** [verification_status] choices of [Student] and [Company]. *)
Inductive VerificationStatus := v_pending | v_approved | v_rejected.

(** [Project.STATUS_CHOICES]. *)
Inductive ProjectStatus :=
  | draft | pending_review | p_rejected | open | in_progress | completed | cancelled.

(** [Project.POSTER_TYPE_CHOICES]. *)
Inductive PosterType := poster_company | poster_university.

(** [ProjectApplication.STATUS_CHOICES]. *)
Inductive ApplicationStatus :=
  | a_pending | shortlisted | accepted | a_rejected | withdrawn.

(** [Milestone.STATUS_CHOICES]. *)
Inductive MilestoneStatus :=
  | m_pending | m_in_progress | submitted | m_approved | revision_required.

#[global] Instance UserType_eq_dec : EqDecision UserType.
Proof. solve_decision. Defined.
#[global] Instance VerificationStatus_eq_dec : EqDecision VerificationStatus.
Proof. solve_decision. Defined.
#[global] Instance ProjectStatus_eq_dec : EqDecision ProjectStatus.
Proof. solve_decision. Defined.
#[global] Instance ApplicationStatus_eq_dec : EqDecision ApplicationStatus.
Proof. solve_decision. Defined.
#[global] Instance MilestoneStatus_eq_dec : EqDecision MilestoneStatus.
Proof. solve_decision. Defined.

(** ** Rows *)

(** [accounts.User]: the authenticated identity carried by a request. *)
Module User.
Record t := {
  id : pk;
  is_authenticated : bool;
  user_type : UserType;
}.
End User.

(** [accounts.University]. *)
Module University.
Record t := {
  user : pk;
  name : string;
  is_verified : bool;
}.
End University.

(** [accounts.Company]. *)
Module Company.
Record t := {
  user : pk;
  name : string;
  contact_person : string;
  contact_email : string;
  company_registration_number : string;
  verification_document : option string;
  is_verified : bool;
  verification_status : VerificationStatus;
  verified_by : option pk;
  rejection_reason : string;
  verified_at : option datetime;
  total_projects_posted : Z;
}.

Definition set_verification (v : bool) (st : VerificationStatus) (c : t) : t :=
  {| user := user c; name := name c; contact_person := contact_person c;
     contact_email := contact_email c;
     company_registration_number := company_registration_number c;
     verification_document := verification_document c;
     is_verified := v; verification_status := st;
     verified_by := verified_by c; rejection_reason := rejection_reason c;
     verified_at := verified_at c;
     total_projects_posted := total_projects_posted c |}.

Definition set_verified_by (by_ : option pk) (at_ : option datetime) (c : t) : t :=
  {| user := user c; name := name c; contact_person := contact_person c;
     contact_email := contact_email c;
     company_registration_number := company_registration_number c;
     verification_document := verification_document c;
     is_verified := is_verified c; verification_status := verification_status c;
     verified_by := by_; rejection_reason := rejection_reason c;
     verified_at := at_;
     total_projects_posted := total_projects_posted c |}.

Definition set_rejection_reason (r : string) (c : t) : t :=
  {| user := user c; name := name c; contact_person := contact_person c;
     contact_email := contact_email c;
     company_registration_number := company_registration_number c;
     verification_document := verification_document c;
     is_verified := is_verified c; verification_status := verification_status c;
     verified_by := verified_by c; rejection_reason := r;
     verified_at := verified_at c;
     total_projects_posted := total_projects_posted c |}.

Definition set_total_projects_posted (n : Z) (c : t) : t :=
  {| user := user c; name := name c; contact_person := contact_person c;
     contact_email := contact_email c;
     company_registration_number := company_registration_number c;
     verification_document := verification_document c;
     is_verified := is_verified c; verification_status := verification_status c;
     verified_by := verified_by c; rejection_reason := rejection_reason c;
     verified_at := verified_at c;
     total_projects_posted := n |}.
End Company.

(** [accounts.Student]. *)
Module Student.
Record t := {
  user : pk;
  university : option pk;
  student_id : string;
  department : string;
  year : string;
  skills : string;
  preferred_domains : string;
  is_verified : bool;
  verification_status : VerificationStatus;
  university_email : string;
  rejection_reason : string;
  verified_by : option pk;
  verified_at : option datetime;
}.

Definition set_verification (v : bool) (st : VerificationStatus) (s : t) : t :=
  {| user := user s; university := university s; student_id := student_id s;
     department := department s; year := year s; skills := skills s;
     preferred_domains := preferred_domains s;
     is_verified := v; verification_status := st;
     university_email := university_email s;
     rejection_reason := rejection_reason s;
     verified_by := verified_by s; verified_at := verified_at s |}.

Definition set_verified_by (by_ : option pk) (at_ : option datetime) (s : t) : t :=
  {| user := user s; university := university s; student_id := student_id s;
     department := department s; year := year s; skills := skills s;
     preferred_domains := preferred_domains s;
     is_verified := is_verified s; verification_status := verification_status s;
     university_email := university_email s;
     rejection_reason := rejection_reason s;
     verified_by := by_; verified_at := at_ |}.

Definition set_rejection_reason (r : string) (s : t) : t :=
  {| user := user s; university := university s; student_id := student_id s;
     department := department s; year := year s; skills := skills s;
     preferred_domains := preferred_domains s;
     is_verified := is_verified s; verification_status := verification_status s;
     university_email := university_email s;
     rejection_reason := r;
     verified_by := verified_by s; verified_at := verified_at s |}.
End Student.

(** [projects.Project]; [assigned_students] lives in the join table. *)
Module Project.
Record t := {
  poster_type : PosterType;
  company : option pk;
  university : pk;
  posted_by_university : bool;
  title : string;
  status : ProjectStatus;
  rejection_reason : string;
  submitted_for_review_at : option datetime;
  approved_at : option datetime;
  completed_at : option datetime;
}.

Definition set_status (st : ProjectStatus) (p : t) : t :=
  {| poster_type := poster_type p; company := company p;
     university := university p; posted_by_university := posted_by_university p;
     title := title p; status := st; rejection_reason := rejection_reason p;
     submitted_for_review_at := submitted_for_review_at p;
     approved_at := approved_at p; completed_at := completed_at p |}.

Definition set_approved_at (at_ : option datetime) (p : t) : t :=
  {| poster_type := poster_type p; company := company p;
     university := university p; posted_by_university := posted_by_university p;
     title := title p; status := status p; rejection_reason := rejection_reason p;
     submitted_for_review_at := submitted_for_review_at p;
     approved_at := at_; completed_at := completed_at p |}.

Definition set_rejection_reason (r : string) (p : t) : t :=
  {| poster_type := poster_type p; company := company p;
     university := university p; posted_by_university := posted_by_university p;
     title := title p; status := status p; rejection_reason := r;
     submitted_for_review_at := submitted_for_review_at p;
     approved_at := approved_at p; completed_at := completed_at p |}.
End Project.

(** [projects.ProjectApplication]. *)
Module ProjectApplication.
Record t := {
  project : pk;
  student : pk;
  cover_letter : string;
  proposed_approach : string;
  portfolio_links : string;
  is_team_application : bool;
  status : ApplicationStatus;
  reviewed_at : option datetime;
}.

Definition set_status (st : ApplicationStatus) (a : t) : t :=
  {| project := project a; student := student a; cover_letter := cover_letter a;
     proposed_approach := proposed_approach a;
     portfolio_links := portfolio_links a;
     is_team_application := is_team_application a;
     status := st; reviewed_at := reviewed_at a |}.

Definition set_reviewed_at (at_ : option datetime) (a : t) : t :=
  {| project := project a; student := student a; cover_letter := cover_letter a;
     proposed_approach := proposed_approach a;
     portfolio_links := portfolio_links a;
     is_team_application := is_team_application a;
     status := status a; reviewed_at := at_ |}.
End ProjectApplication.

(** [projects.Milestone]. *)
Module Milestone.
Record t := {
  project : pk;
  title : string;
  order : Z;
  completed_at : option datetime;
  status : MilestoneStatus;
}.

Definition set_status (st : MilestoneStatus) (m : t) : t :=
  {| project := project m; title := title m; order := order m;
     completed_at := completed_at m; status := st |}.

Definition set_completed_at (at_ : option datetime) (m : t) : t :=
  {| project := project m; title := title m; order := order m;
     completed_at := at_; status := status m |}.
End Milestone.

(** [projects.Deliverable]. *)
Module Deliverable.
Record t := {
  project : pk;
  student : pk;
  milestone : option pk;
  title : string;
  is_approved : bool;
  feedback : string;
  revision_required : bool;
  reviewed_at : option datetime;
}.

(** The four review fields, assigned together by the review view. *)
Definition set_review (approved revision : bool) (fb : string)
    (at_ : option datetime) (d : t) : t :=
  {| project := project d; student := student d; milestone := milestone d;
     title := title d; is_approved := approved; feedback := fb;
     revision_required := revision; reviewed_at := at_ |}.
End Deliverable.

(** ** The database *)

Record DB := {
  (** [accounts.User] rows: the role tag of each registered user *)
  users : gmap Z UserType;
  universities : gmap Z University.t;
  companies : gmap Z Company.t;
  students : gmap Z Student.t;
  projects : gmap Z Project.t;
  (** join table of [Project.assigned_students]: (project, student) *)
  project_assigned_students : gset (Z * Z);
  applications : gmap Z ProjectApplication.t;
  milestones : gmap Z Milestone.t;
  deliverables : gmap Z Deliverable.t;
}.

Definition set_users (f : gmap Z UserType → gmap Z UserType) (d : DB) : DB :=
  {| users := f (users d); universities := universities d; companies := companies d;
     students := students d; projects := projects d;
     project_assigned_students := project_assigned_students d;
     applications := applications d; milestones := milestones d;
     deliverables := deliverables d |}.

Definition set_companies (f : gmap Z Company.t → gmap Z Company.t) (d : DB) : DB :=
  {| users := users d; universities := universities d; companies := f (companies d);
     students := students d; projects := projects d;
     project_assigned_students := project_assigned_students d;
     applications := applications d; milestones := milestones d;
     deliverables := deliverables d |}.

Definition set_students (f : gmap Z Student.t → gmap Z Student.t) (d : DB) : DB :=
  {| users := users d; universities := universities d; companies := companies d;
     students := f (students d); projects := projects d;
     project_assigned_students := project_assigned_students d;
     applications := applications d; milestones := milestones d;
     deliverables := deliverables d |}.

Definition set_projects (f : gmap Z Project.t → gmap Z Project.t) (d : DB) : DB :=
  {| users := users d; universities := universities d; companies := companies d;
     students := students d; projects := f (projects d);
     project_assigned_students := project_assigned_students d;
     applications := applications d; milestones := milestones d;
     deliverables := deliverables d |}.

Definition set_project_assigned_students (f : gset (Z * Z) → gset (Z * Z)) (d : DB) : DB :=
  {| users := users d; universities := universities d; companies := companies d;
     students := students d; projects := projects d;
     project_assigned_students := f (project_assigned_students d);
     applications := applications d; milestones := milestones d;
     deliverables := deliverables d |}.

Definition set_applications
    (f : gmap Z ProjectApplication.t → gmap Z ProjectApplication.t) (d : DB) : DB :=
  {| users := users d; universities := universities d; companies := companies d;
     students := students d; projects := projects d;
     project_assigned_students := project_assigned_students d;
     applications := f (applications d); milestones := milestones d;
     deliverables := deliverables d |}.

Definition set_milestones (f : gmap Z Milestone.t → gmap Z Milestone.t) (d : DB) : DB :=
  {| users := users d; universities := universities d; companies := companies d;
     students := students d; projects := projects d;
     project_assigned_students := project_assigned_students d;
     applications := applications d; milestones := f (milestones d);
     deliverables := deliverables d |}.

Definition set_deliverables (f : gmap Z Deliverable.t → gmap Z Deliverable.t) (d : DB) : DB :=
  {| users := users d; universities := universities d; companies := companies d;
     students := students d; projects := projects d;
     project_assigned_students := project_assigned_students d;
     applications := applications d; milestones := milestones d;
     deliverables := f (deliverables d) |}.

(** ** Effects: a view is a computation over the world that may raise *)

(** Exceptions a request can end in. [PermissionDenied] is what
    [UserPassesTestMixin] raises for a logged-in user whose [test_func] is
    false (HTTP 403); [LoginRedirect] is [LoginRequiredMixin] sending an
    anonymous user to the login page; [DatabaseError] is a failing write of
    the storage layer. *)
Inductive Exception :=
  | Http404 | PermissionDenied | LoginRedirect | AttributeError
  | DoesNotExist | DatabaseError | ZeroDivisionError.

Inductive Result (A : Type) :=
  | Ok (a : A)
  | Raise (e : Exception).
Arguments Ok {A} a.
Arguments Raise {A} e.

(** [django.contrib.messages] levels. *)
Inductive Level := info | success | warning | error.

(** The world of one request: the database, the flash messages queued so
    far, and a budget of writes the storage layer will still carry out
    ([None]: it never fails; [Some n]: the write after the next [n] fails
    with [DatabaseError]). *)
Record World := {
  store : DB;
  messages : list (Level * string);
  writes_left : option nat;
}.

Definition Eff (A : Type) : Type := World → Result A * World.

Definition ret {A} (a : A) : Eff A := λ w, (Ok a, w).

Definition bind {A B} (m : Eff A) (k : A → Eff B) : Eff B :=
  λ w, match m w with
       | (Ok a, w') => k a w'
       | (Raise e, w') => (Raise e, w')
       end.

Definition raise {A} (e : Exception) : Eff A := λ w, (Raise e, w).

Declare Scope eff_scope.
Delimit Scope eff_scope with eff.
Notation "x <- m ;; k" := (bind m (λ x, k))
  (at level 100, m at next level, right associativity) : eff_scope.
Notation "m ;; k" := (bind m (λ _, k))
  (at level 100, right associativity) : eff_scope.
Local Open Scope eff_scope.

(** Read the database. *)
Definition query {A} (f : DB → A) : Eff A := λ w, (Ok (f (store w)), w).

(** One write ([save()], [add()]) against the database. *)
Definition db_write (f : DB → DB) : Eff () :=
  λ w, match writes_left w with
       | Some O => (Raise DatabaseError, w)
       | Some (S n) =>
           (Ok (), {| store := f (store w); messages := messages w;
                      writes_left := Some n |})
       | None =>
           (Ok (), {| store := f (store w); messages := messages w;
                      writes_left := None |})
       end.

(** [messages.<level>(request, text)]. *)
Definition add_message (l : Level) (text : string) : Eff () :=
  λ w, (Ok (), {| store := store w; messages := messages w ++ [(l, text)];
                  writes_left := writes_left w |}).

(** [with transaction.atomic(): body] - the writes of [body] are committed
    when it returns and rolled back when it raises. *)
Definition atomic {A} (body : Eff A) : Eff A :=
  λ w, match body w with
       | (Ok a, w') => (Ok a, w')
       | (Raise e, w') =>
           (Raise e, {| store := store w; messages := messages w';
                        writes_left := writes_left w' |})
       end.

(** [get_object_or_404(Model, pk=k, <filter>)]. *)
Definition get_object_or_404 {A} (table : DB → gmap Z A) (k : pk) (filter : A → bool)
  : Eff A :=
  row <- query (λ d, table d !! k) ;;
  match row with
  | Some a => if filter a then ret a else raise Http404
  | None => raise Http404
  end.

(** Follow a foreign key ([application.project], [deliverable.milestone]). *)
Definition related {A} (table : DB → gmap Z A) (k : pk) : Eff A :=
  row <- query (λ d, table d !! k) ;;
  match row with
  | Some a => ret a
  | None => raise DoesNotExist
  end.

(** First row of a table satisfying [P], with its key. *)
Definition find_row {A} (P : A → bool) (table : gmap Z A) : option (Z * A) :=
  List.find (λ kv, P kv.2) (map_to_list table).

(** Reverse one-to-one accessors [user.student_profile],
    [user.company_profile], [user.university_profile]; [None] is the case
    where [hasattr(user, ...)] is false. *)
Definition student_profile (d : DB) (u : User.t) : option (Z * Student.t) :=
  find_row (λ s, bool_decide (Student.user s = User.id u)) (students d).

Definition company_profile (d : DB) (u : User.t) : option (Z * Company.t) :=
  find_row (λ c, bool_decide (Company.user c = User.id u)) (companies d).

Definition university_profile (d : DB) (u : User.t) : option (Z * University.t) :=
  find_row (λ c, bool_decide (University.user c = User.id u)) (universities d).

(** What a view hands back when it does not raise. *)
Inductive Response :=
  | Redirect (url_name : string)
  | Render (template : string).

(** [request.POST]: the submitted form fields. *)
Abbreviation POST := (gmap string string) (only parsing).

(** [LoginRequiredMixin] followed by [UserPassesTestMixin]: an anonymous user
    is sent to the login page, a user failing [test_func] gets 403. *)
Definition dispatch {A} (u : User.t) (test_func : Eff bool) (handler : Eff A) : Eff A :=
  if negb (User.is_authenticated u) then raise LoginRedirect
  else
    allowed <- test_func ;;
    if allowed then handler else raise PermissionDenied.

(** The primary key the database gives the next row of a table: one more
    than the largest key in use, 1 on an empty table. *)
Definition next_pk {A} (table : gmap Z A) : pk :=
  1 + foldr Z.max 0 (elements (dom table)).

(** ** apps/projects/views.py *)

(** *** ProjectCreateView *)

(** The cleaned fields of [ProjectForm] that the workflow uses. *)
Record ProjectForm := {
  form_university : option pk;
  form_title : string;
}.

(** [ProjectCreateView.test_func]. *)
Definition ProjectCreateView_test_func (u : User.t) : Eff bool :=
  match User.user_type u with
  | company =>
      profile <- query (λ d, company_profile d u) ;;
      match profile with
      | Some (_, c) =>
          if negb (Company.is_verified c) then
            add_message error
              "Your company must be verified by a university before you can post projects." ;;
            ret false
          else ret true
      | None =>
          add_message error
            "Your company must be verified by a university before you can post projects." ;;
          ret false
      end
  | university =>
      profile <- query (λ d, university_profile d u) ;;
      ret (bool_decide (is_Some profile))
  | student => ret false
  end.

(** [ProjectForm.is_valid], with [get_form] lifting the requirement on
    [university] for a university user; the choice is limited to verified
    universities. *)
Definition ProjectForm_is_valid (d : DB) (u : User.t) (form : ProjectForm) : bool :=
  match form_university form with
  | Some k =>
      match universities d !! k with
      | Some uni => University.is_verified uni
      | None => false
      end
  | None => bool_decide (User.user_type u = university)
  end
  && negb (bool_decide (form_title form = "")).

(** The instance a [ProjectForm] builds before [form_valid] touches it:
    model defaults plus the cleaned fields. *)
Definition ProjectForm_instance (form : ProjectForm) (uni : pk) : Project.t :=
  {| Project.poster_type := poster_company;
     Project.company := None;
     Project.university := uni;
     Project.posted_by_university := false;
     Project.title := form_title form;
     Project.status := draft;
     Project.rejection_reason := "";
     Project.submitted_for_review_at := None;
     Project.approved_at := None;
     Project.completed_at := None |}.

(** [ProjectCreateView.form_valid]. The instance is kept with the university
    still to be filled in from the cleaned form until it is saved: a missing
    university makes the insert fail. *)
Definition ProjectCreateView_form_valid (now : datetime) (u : User.t) (form : ProjectForm)
  : Eff Response :=
  instance <-
    match User.user_type u with
    | company =>
        profile <- query (λ d, company_profile d u) ;;
        match profile with
        | Some (cid, c) =>
            db_write (set_companies
              <[cid := Company.set_total_projects_posted
                         (Company.total_projects_posted c + 1) c]>) ;;
            add_message success "Project submitted for university review!" ;;
            ret (form_university form, λ uni,
                 {| Project.poster_type := poster_company;
                    Project.company := Some cid;
                    Project.university := uni;
                    Project.posted_by_university := false;
                    Project.title := form_title form;
                    Project.status := pending_review;
                    Project.rejection_reason := "";
                    Project.submitted_for_review_at := Some now;
                    Project.approved_at := None;
                    Project.completed_at := None |})
        | None => raise AttributeError
        end
    | university =>
        profile <- query (λ d, university_profile d u) ;;
        match profile with
        | Some (uid, _) =>
            add_message success
              "Project posted successfully and is now open for applications!" ;;
            ret (Some uid, λ uni,
                 {| Project.poster_type := poster_university;
                    Project.company := None;
                    Project.university := uni;
                    Project.posted_by_university := true;
                    Project.title := form_title form;
                    Project.status := open;
                    Project.rejection_reason := "";
                    Project.submitted_for_review_at := None;
                    Project.approved_at := Some now;
                    Project.completed_at := None |})
        | None => raise AttributeError
        end
    | student => ret (form_university form, ProjectForm_instance form)
    end ;;
  match instance.1 with
  | Some uni =>
      db_write (λ d, set_projects <[next_pk (projects d) := instance.2 uni]> d) ;;
      ret (Redirect "projects:list")
  | None => raise DatabaseError
  end.

(** [ProjectCreateView] answering a POST. *)
Definition ProjectCreateView (now : datetime) (u : User.t) (form : ProjectForm)
  : Eff Response :=
  dispatch u (ProjectCreateView_test_func u)
    (valid <- query (λ d, ProjectForm_is_valid d u form) ;;
     if valid then ProjectCreateView_form_valid now u form
     else ret (Render "projects/create.html")).

(** *** ProjectApplyView *)

(** The cleaned fields of [ProjectApplicationForm]. *)
Record ProjectApplicationForm := {
  form_cover_letter : string;
  form_proposed_approach : string;
  form_portfolio_links : string;
  form_is_team_application : bool;
}.

(** [ProjectApplication.objects.filter(project=..., student=...).exists()]. *)
Definition application_exists (d : DB) (project_id student_pk : pk) : bool :=
  bool_decide (is_Some (find_row
    (λ a, bool_decide (ProjectApplication.project a = project_id)
          && bool_decide (ProjectApplication.student a = student_pk))
    (applications d))).

(** [ProjectApplyView.test_func]. *)
Definition ProjectApplyView_test_func (u : User.t) (pk_ : pk) : Eff bool :=
  if negb (bool_decide (User.user_type u = student)) then ret false
  else
    profile <- query (λ d, student_profile d u) ;;
    match profile with
    | None => ret false
    | Some (sid, _) =>
        project <- get_object_or_404 projects pk_ (λ _, true) ;;
        if negb (bool_decide (Project.status project = open)) then
          add_message warning "This project is not open for applications." ;;
          ret false
        else
          dup <- query (λ d, application_exists d pk_ sid) ;;
          if dup then
            add_message warning "You have already applied to this project!" ;;
            ret false
          else ret true
    end.

(** [ProjectApplyView.form_valid]. *)
Definition ProjectApplyView_form_valid (u : User.t) (pk_ : pk)
    (form : ProjectApplicationForm) : Eff Response :=
  _ <- get_object_or_404 projects pk_ (λ _, true) ;;
  profile <- query (λ d, student_profile d u) ;;
  match profile with
  | None => raise AttributeError
  | Some (sid, _) =>
      let instance :=
        {| ProjectApplication.project := pk_;
           ProjectApplication.student := sid;
           ProjectApplication.cover_letter := form_cover_letter form;
           ProjectApplication.proposed_approach := form_proposed_approach form;
           ProjectApplication.portfolio_links := form_portfolio_links form;
           ProjectApplication.is_team_application := form_is_team_application form;
           ProjectApplication.status := a_pending;
           ProjectApplication.reviewed_at := None |} in
      add_message success "Application submitted successfully" ;;
      db_write (λ d, set_applications <[next_pk (applications d) := instance]> d) ;;
      ret (Redirect "projects:my_applications")
  end.

(** [ProjectApplyView] answering a POST; [cover_letter] is the one required
    field of the form. *)
Definition ProjectApplyView (u : User.t) (pk_ : pk) (form : ProjectApplicationForm)
  : Eff Response :=
  dispatch u (ProjectApplyView_test_func u pk_)
    (if negb (bool_decide (form_cover_letter form = "")) then
       ProjectApplyView_form_valid u pk_ form
     else ret (Render "projects/apply.html")).

(** *** ApplicationActionView (company side) *)

(** [ApplicationActionView.test_func]. Reading [.user] of a project without
    a company raises. *)
Definition ApplicationActionView_test_func (u : User.t) (application_id : pk) : Eff bool :=
  application <- get_object_or_404 applications application_id (λ _, true) ;;
  if negb (bool_decide (User.user_type u = company)) then ret false
  else
    profile <- query (λ d, company_profile d u) ;;
    if negb (bool_decide (is_Some profile)) then ret false
    else
      project <- related projects (ProjectApplication.project application) ;;
      match Project.company project with
      | None => raise AttributeError
      | Some cid =>
          c <- related companies cid ;;
          ret (bool_decide (Company.user c = User.id u))
      end.

(** [ApplicationActionView.post]. Message texts are given without the
    interpolated student name. *)
Definition ApplicationActionView_post (now : datetime) (post : POST)
    (pk_ application_id : pk) : Eff Response :=
  application <- get_object_or_404 applications application_id (λ _, true) ;;
  let project_id := ProjectApplication.project application in
  project <- related projects project_id ;;
  let action := post !! "action" in
  (if bool_decide (action = Some "accept") then
     atomic (
       let application := ProjectApplication.set_status accepted application in
       let application := ProjectApplication.set_reviewed_at (Some now) application in
       db_write (set_applications <[application_id := application]>) ;;
       db_write (set_project_assigned_students
                   (λ r, {[ (project_id, ProjectApplication.student application) ]} ∪ r)) ;;
       (if bool_decide (Project.status project = open) then
          let project := Project.set_status in_progress project in
          db_write (set_projects <[project_id := project]>)
        else ret ()) ;;
       add_message success "Accepted application from ")
   else if bool_decide (action = Some "reject") then
     let application := ProjectApplication.set_status a_rejected application in
     let application := ProjectApplication.set_reviewed_at (Some now) application in
     db_write (set_applications <[application_id := application]>) ;;
     add_message warning "Rejected application from "
   else ret ()) ;;
  ret (Redirect "projects:manage_applications").

Definition ApplicationActionView (now : datetime) (u : User.t) (post : POST)
    (pk_ application_id : pk) : Eff Response :=
  dispatch u (ApplicationActionView_test_func u application_id)
    (ApplicationActionView_post now post pk_ application_id).

(** *** UniversityApplicationActionView (university side) *)

(** [UniversityApplicationActionView.test_func]. *)
Definition UniversityApplicationActionView_test_func (u : User.t) (application_id : pk)
  : Eff bool :=
  application <- get_object_or_404 applications application_id (λ _, true) ;;
  if negb (bool_decide (User.user_type u = university)) then ret false
  else
    profile <- query (λ d, university_profile d u) ;;
    if negb (bool_decide (is_Some profile)) then ret false
    else
      project <- related projects (ProjectApplication.project application) ;;
      if negb (Project.posted_by_university project) then ret false
      else
        uni <- related universities (Project.university project) ;;
        ret (bool_decide (University.user uni = User.id u)).

(** [UniversityApplicationActionView.post]. *)
Definition UniversityApplicationActionView_post (now : datetime) (post : POST)
    (application_id : pk) : Eff Response :=
  application <- get_object_or_404 applications application_id (λ _, true) ;;
  let project_id := ProjectApplication.project application in
  project <- related projects project_id ;;
  let action := post !! "action" in
  (if bool_decide (action = Some "accept") then
     atomic (
       let application := ProjectApplication.set_status accepted application in
       let application := ProjectApplication.set_reviewed_at (Some now) application in
       db_write (set_applications <[application_id := application]>) ;;
       db_write (set_project_assigned_students
                   (λ r, {[ (project_id, ProjectApplication.student application) ]} ∪ r)) ;;
       (if bool_decide (Project.status project = open) then
          let project := Project.set_status in_progress project in
          db_write (set_projects <[project_id := project]>)
        else ret ()) ;;
       add_message success "✓ Accepted application from ")
   else if bool_decide (action = Some "reject") then
     let application := ProjectApplication.set_status a_rejected application in
     let application := ProjectApplication.set_reviewed_at (Some now) application in
     db_write (set_applications <[application_id := application]>) ;;
     add_message warning "✗ Rejected application from "
   else if bool_decide (action = Some "shortlist") then
     let application := ProjectApplication.set_status shortlisted application in
     db_write (set_applications <[application_id := application]>) ;;
     add_message info "⭐ Shortlisted application from "
   else ret ()) ;;
  ret (Redirect "projects:university_applications").

Definition UniversityApplicationActionView (now : datetime) (u : User.t) (post : POST)
    (application_id : pk) : Eff Response :=
  dispatch u (UniversityApplicationActionView_test_func u application_id)
    (UniversityApplicationActionView_post now post application_id).

(** *** ProjectReviewView *)

(** [ProjectReviewView.test_func]. *)
Definition ProjectReviewView_test_func (u : User.t) : Eff bool :=
  if negb (bool_decide (User.user_type u = university)) then ret false
  else
    profile <- query (λ d, university_profile d u) ;;
    ret (bool_decide (is_Some profile)).

(** [ProjectReviewView.post]. *)
Definition ProjectReviewView_post (now : datetime) (u : User.t) (post : POST) (pk_ : pk)
  : Eff Response :=
  profile <- query (λ d, university_profile d u) ;;
  match profile with
  | None => raise AttributeError
  | Some (uid, _) =>
      project <- get_object_or_404 projects pk_
                   (λ p, bool_decide (Project.university p = uid)) ;;
      let action := post !! "action" in
      project <-
        (if bool_decide (action = Some "approve") then
           let project := Project.set_status open project in
           let project := Project.set_approved_at (Some now) project in
           add_message success "Project approved!" ;;
           ret project
         else if bool_decide (action = Some "reject") then
           let project := Project.set_status p_rejected project in
           let project :=
             Project.set_rejection_reason
               (default "No reason provided" (post !! "rejection_reason")) project in
           add_message warning "Project rejected." ;;
           ret project
         else ret project) ;;
      db_write (set_projects <[pk_ := project]>) ;;
      ret (Redirect "projects:pending_review")
  end.

Definition ProjectReviewView (now : datetime) (u : User.t) (post : POST) (pk_ : pk)
  : Eff Response :=
  dispatch u (ProjectReviewView_test_func u) (ProjectReviewView_post now u post pk_).

(** *** ProjectWorkspaceView: progress *)




(** [project.milestones]: the milestones of a project. *)
Definition project_milestones (d : DB) (project_id : pk) : list (Z * Milestone.t) :=
  List.filter (λ kv, bool_decide (Milestone.project kv.2 = project_id))
    (map_to_list (milestones d)).


(** *** ReviewDeliverableView *)

(** [milestone.deliverables.all()]. *)
Definition milestone_deliverables (d : DB) (milestone_id : pk)
  : list (Z * Deliverable.t) :=
  List.filter (λ kv, bool_decide (Deliverable.milestone kv.2 = Some milestone_id))
    (map_to_list (deliverables d)).

(** [ReviewDeliverableView.post]. *)
Definition ReviewDeliverableView_post (now : datetime) (post : POST)
    (pk_ deliverable_id : pk) : Eff Response :=
  _ <- get_object_or_404 projects pk_ (λ _, true) ;;
  deliverable <- get_object_or_404 deliverables deliverable_id
                   (λ dl, bool_decide (Deliverable.project dl = pk_)) ;;
  let action := post !! "action" in
  let feedback := default "" (post !! "feedback") in
  (if bool_decide (action = Some "approve") then
     let deliverable := Deliverable.set_review true false feedback (Some now) deliverable in
     db_write (set_deliverables <[deliverable_id := deliverable]>) ;;
     match Deliverable.milestone deliverable with
     | Some milestone_id =>
         milestone <- related milestones milestone_id ;;
         linked <- query (λ d, milestone_deliverables d milestone_id) ;;
         if forallb (λ kv, Deliverable.is_approved kv.2) linked then
           let milestone := Milestone.set_status m_approved milestone in
           let milestone := Milestone.set_completed_at (Some now) milestone in
           db_write (set_milestones <[milestone_id := milestone]>)
         else ret ()
     | None => ret ()
     end ;;
     add_message success "Deliverable approved!"
   else if bool_decide (action = Some "revision") then
     let deliverable := Deliverable.set_review false true feedback (Some now) deliverable in
     db_write (set_deliverables <[deliverable_id := deliverable]>) ;;
     match Deliverable.milestone deliverable with
     | Some milestone_id =>
         milestone <- related milestones milestone_id ;;
         let milestone := Milestone.set_status revision_required milestone in
         db_write (set_milestones <[milestone_id := milestone]>)
     | None => ret ()
     end ;;
     add_message warning "Revision requested for deliverable."
   else ret ()) ;;
  ret (Redirect "projects:workspace").

(** ** apps/accounts/forms.py and apps/accounts/views.py *)

(** [try: body except Exception: handler]. *)
Definition try_except {A} (body : Eff A) (handler : Exception → Eff A) : Eff A :=
  λ w, match body w with
       | (Ok a, w') => (Ok a, w')
       | (Raise e, w') => handler e w'
       end.

(** *** Registration of a student *)

(** The profile skeleton [StudentRegistrationForm.save] creates. *)
Definition new_student (user_id : pk) : Student.t :=
  {| Student.user := user_id;
     Student.university := None;
     Student.student_id := "";
     Student.department := "Not specified";
     Student.year := "1";
     Student.skills := "";
     Student.preferred_domains := "";
     Student.is_verified := false;
     Student.verification_status := v_pending;
     Student.university_email := "";
     Student.rejection_reason := "";
     Student.verified_by := None;
     Student.verified_at := None |}.

(** [StudentRegistrationForm.save]: the user row, then the profile. *)
Definition StudentRegistrationForm_save : Eff pk :=
  user_id <- query (λ d, next_pk (users d)) ;;
  db_write (set_users <[user_id := student]>) ;;
  db_write (λ d, set_students <[next_pk (students d) := new_student user_id]> d) ;;
  ret user_id.

(** [RegisterView.post] for [type=student]; [clean] refuses the form while
    no university is registered. *)
Definition RegisterView_post : Eff Response :=
  have_university <- query (λ d, negb (bool_decide (universities d = ∅))) ;;
  if have_university then
    try_except
      (_ <- StudentRegistrationForm_save ;;
       add_message info
         "Please complete your profile to get verified by your university." ;;
       ret (Redirect "accounts:profile_edit"))
      (λ _, add_message error "Registration failed: " ;;
            ret (Render "accounts/register.html"))
  else ret (Render "accounts/register.html").

(** *** ProfileEditView (student) *)

(** The cleaned fields of [StudentProfileForm]. *)
Record StudentProfileForm := {
  form_student_university : option pk;
  form_student_id : string;
  form_department : string;
  form_year : string;
  form_university_email : string;
  form_skills : string;
  form_preferred_domains : string;
}.

(** [Student.YEAR_CHOICES]. *)
Definition YEAR_CHOICES : list string := ["1"; "2"; "3"; "4"; "graduate"].

(** [StudentProfileForm.is_valid]: [university] and [student_id] may be left
    blank, [department], [year] and [university_email] are required, and the
    university is chosen among the verified ones. The syntax check of the
    e-mail validator is not modelled. *)
Definition StudentProfileForm_is_valid (d : DB) (form : StudentProfileForm) : bool :=
  match form_student_university form with
  | Some k =>
      match universities d !! k with
      | Some uni => University.is_verified uni
      | None => false
      end
  | None => true
  end
  && negb (bool_decide (form_department form = ""))
  && bool_decide (form_year form ∈ YEAR_CHOICES)
  && negb (bool_decide (form_university_email form = "")).

(** [form.save(commit=False)]: the form fields written onto the instance. *)
Definition StudentProfileForm_save (form : StudentProfileForm) (s : Student.t) : Student.t :=
  {| Student.user := Student.user s;
     Student.university := form_student_university form;
     Student.student_id := form_student_id form;
     Student.department := form_department form;
     Student.year := form_year form;
     Student.skills := form_skills form;
     Student.preferred_domains := form_preferred_domains form;
     Student.is_verified := Student.is_verified s;
     Student.verification_status := Student.verification_status s;
     Student.university_email := form_university_email form;
     Student.rejection_reason := Student.rejection_reason s;
     Student.verified_by := Student.verified_by s;
     Student.verified_at := Student.verified_at s |}.

(** [ProfileEditView.form_valid] on a student profile; the profile is saved
    by the view and once more by [UpdateView.form_valid]. *)
Definition ProfileEditView_form_valid (u : User.t) (student_pk : pk)
    (form : StudentProfileForm) (instance : Student.t) : Eff Response :=
  let profile := StudentProfileForm_save form instance in
  profile <-
    (if bool_decide (User.user_type u = student) then
       if negb (Student.is_verified profile) then
         let profile := Student.set_verification (Student.is_verified profile)
                          v_pending profile in
         add_message success
           "Profile submitted for verification! Your university will review and approve your account." ;;
         ret profile
       else
         add_message success "Profile updated successfully!" ;;
         ret profile
     else
       add_message success "Profile updated successfully!" ;;
       ret profile) ;;
  db_write (set_students <[student_pk := profile]>) ;;
  db_write (set_students <[student_pk := profile]>) ;;
  ret (Redirect "accounts:profile").

(** [ProfileEditView] answering the POST of a student user. Without a
    profile row the form works on an unsaved instance, whose save fails. *)
Definition ProfileEditView (u : User.t) (form : StudentProfileForm) : Eff Response :=
  if negb (User.is_authenticated u) then raise LoginRedirect
  else
    object <- query (λ d, student_profile d u) ;;
    valid <- query (λ d, StudentProfileForm_is_valid d form) ;;
    match object with
    | Some (student_pk, instance) =>
        if valid then ProfileEditView_form_valid u student_pk form instance
        else ret (Render "accounts/edit_profile.html")
    | None =>
        add_message error "Profile not found. Please contact support." ;;
        if valid then raise DatabaseError
        else ret (Render "accounts/edit_profile.html")
    end.

(** *** Verification actions of a university *)

(** [UniversityRequiredMixin.test_func]. *)
Definition UniversityRequiredMixin_test_func (u : User.t) : Eff bool :=
  if negb (User.is_authenticated u) then ret false
  else if negb (bool_decide (User.user_type u = university)) then ret false
  else
    profile <- query (λ d, university_profile d u) ;;
    ret (bool_decide (is_Some profile)).

(** [StudentVerificationActionView.post]. *)
Definition StudentVerificationActionView_post (now : datetime) (u : User.t) (post : POST)
    (student_id : pk) : Eff Response :=
  profile <- query (λ d, university_profile d u) ;;
  match profile with
  | None => raise AttributeError
  | Some (university_id, _) =>
      student <- get_object_or_404 students student_id
                   (λ s, bool_decide (Student.university s = Some university_id)) ;;
      let action := post !! "action" in
      (if bool_decide (action = Some "approve") then
         let student := Student.set_verification true v_approved student in
         let student := Student.set_verified_by (Some university_id) (Some now) student in
         db_write (set_students <[student_id := student]>) ;;
         add_message success "✓ Approved - Student can now access all features."
       else if bool_decide (action = Some "reject") then
         let rejection_reason :=
           default "No reason provided" (post !! "rejection_reason") in
         let student := Student.set_verification false v_rejected student in
         let student := Student.set_rejection_reason rejection_reason student in
         db_write (set_students <[student_id := student]>) ;;
         add_message warning "✗ Rejected "
       else ret ()) ;;
      ret (Redirect "accounts:university_students")
  end.

Definition StudentVerificationActionView (now : datetime) (u : User.t) (post : POST)
    (student_id : pk) : Eff Response :=
  dispatch u (UniversityRequiredMixin_test_func u)
    (StudentVerificationActionView_post now u post student_id).

(** [CompanyVerificationActionView.post]. *)
Definition CompanyVerificationActionView_post (now : datetime) (u : User.t) (post : POST)
    (company_id : pk) : Eff Response :=
  profile <- query (λ d, university_profile d u) ;;
  match profile with
  | None => raise AttributeError
  | Some (university_id, _) =>
      company <- get_object_or_404 companies company_id (λ _, true) ;;
      let action := post !! "action" in
      (if bool_decide (action = Some "approve") then
         let company := Company.set_verification true v_approved company in
         let company := Company.set_verified_by (Some university_id) (Some now) company in
         db_write (set_companies <[company_id := company]>) ;;
         add_message success "✓ Approved - Company can now post projects."
       else if bool_decide (action = Some "reject") then
         let rejection_reason :=
           default "No reason provided" (post !! "rejection_reason") in
         let company := Company.set_verification false v_rejected company in
         let company := Company.set_rejection_reason rejection_reason company in
         db_write (set_companies <[company_id := company]>) ;;
         add_message warning "✗ Rejected "
       else ret ()) ;;
      ret (Redirect "accounts:university_companies")
  end.

Definition CompanyVerificationActionView (now : datetime) (u : User.t) (post : POST)
    (company_id : pk) : Eff Response :=
  dispatch u (UniversityRequiredMixin_test_func u)
    (CompanyVerificationActionView_post now u post company_id).

(** *** DashboardView.dispatch: the gate in front of the student dashboard *)

Definition DashboardView_dispatch (u : User.t) : Eff Response :=
  if negb (User.is_authenticated u) then raise LoginRedirect
  else
    match User.user_type u with
    | student =>
        profile <- query (λ d, student_profile d u) ;;
        match profile with
        | None =>
            add_message error "Profile not found. Please contact support." ;;
            ret (Redirect "home")
        | Some (_, s) =>
            if negb (bool_decide (is_Some (Student.university s)))
               || bool_decide (Student.student_id s = "")
               || bool_decide (Student.university_email s = "") then
              add_message warning
                "Please complete your profile with university details to get verified." ;;
              ret (Redirect "accounts:profile_edit")
            else
              match Student.verification_status s with
              | v_pending => ret (Render "accounts/verification_pending.html")
              | v_rejected => ret (Render "accounts/verification_rejected.html")
              | v_approved => ret (Render "dashboard/student.html")
              end
        end
    | company =>
        profile <- query (λ d, company_profile d u) ;;
        match profile with
        | None =>
            add_message error "Profile not found. Please contact support." ;;
            ret (Redirect "home")
        | Some (_, c) =>
            if bool_decide (Company.contact_email c = "")
               || bool_decide (Company.contact_person c = "")
               || bool_decide (Company.company_registration_number c = "")
               || negb (bool_decide (is_Some (Company.verification_document c))) then
              add_message warning
                "Please complete your company profile and upload verification documents." ;;
              ret (Redirect "accounts:profile_edit")
            else
              match Company.verification_status c with
              | v_pending => ret (Render "accounts/company_verification_pending.html")
              | v_rejected => ret (Render "accounts/company_verification_rejected.html")
              | v_approved => ret (Render "dashboard/company.html")
              end
        end
    | university => ret (Render "dashboard/university.html")
    end.

(** ** Running a view *)

(** The world a request starts in: the database as it stands, no message
    queued, a storage layer that does not fail. *)
Definition request_on (d : DB) : World :=
  {| store := d; messages := []; writes_left := None |}.

(** The same, with a storage layer that fails after [n] writes. *)
Definition failing_after (n : nat) (d : DB) : World :=
  {| store := d; messages := []; writes_left := Some n |}.


From Stdlib Require Import Ascii.

(** ** apps/projects/views.py: listing, detail, editing *)

(** *** ProjectListView *)

(** [ProjectListView.get_queryset], as the set of listed rows. [narrow] is
    the conjunction of the filters taken from the query string (domain,
    university, search text, payment range), each of which is a further
    [filter] on the queryset. *)
Definition ProjectListView_get_queryset (d : DB) (u : User.t) (narrow : Project.t → bool)
  : gmap Z Project.t :=
  let queryset := filter (λ kv, Project.status kv.2 = open) (projects d) in
  let queryset :=
    if User.is_authenticated u && bool_decide (User.user_type u = student) then
      match student_profile d u with
      | Some (_, s) =>
          match Student.university s with
          | Some student_university =>
              filter (λ kv, Project.university kv.2 = student_university) queryset
          | None => ∅
          end
      | None => queryset
      end
    else queryset in
  filter (λ kv, narrow kv.2 = true) queryset.

(** *** ProjectDetailView *)

(** [ProjectDetailView.get_queryset]: the projects a user may look at. *)
Definition ProjectDetailView_get_queryset (d : DB) (u : User.t) : gmap Z Project.t :=
  let open_projects := filter (λ kv, Project.status kv.2 = open) (projects d) in
  if negb (User.is_authenticated u) then open_projects
  else
    match User.user_type u, student_profile d u, company_profile d u,
          university_profile d u with
    | student, Some (student_pk, _), _, _ =>
        filter (λ kv, Project.status kv.2 = open
                      ∨ (kv.1, student_pk) ∈ project_assigned_students d
                      ∨ application_exists d kv.1 student_pk = true)
          (projects d)
    | company, _, Some (company_pk, _), _ =>
        filter (λ kv, Project.company kv.2 = Some company_pk) (projects d)
    | university, _, _, Some (university_pk, _) =>
        filter (λ kv, Project.university kv.2 = university_pk) (projects d)
    | _, _, _, _ => open_projects
    end.

(** [DetailView.get_object] over that queryset. *)
Definition ProjectDetailView_get_object (u : User.t) (pk_ : pk) : Eff Project.t :=
  row <- query (λ d, ProjectDetailView_get_queryset d u !! pk_) ;;
  match row with
  | Some p => ret p
  | None => raise Http404
  end.

(** *** ProjectUpdateView *)

(** [ProjectUpdateView.test_func]. *)
Definition ProjectUpdateView_test_func (u : User.t) (pk_ : pk) : Eff bool :=
  project <- get_object_or_404 projects pk_ (λ _, true) ;;
  if negb (bool_decide (User.user_type u = company)) then ret false
  else
    profile <- query (λ d, company_profile d u) ;;
    if negb (bool_decide (is_Some profile)) then ret false
    else
      match Project.company project with
      | None => raise AttributeError
      | Some cid =>
          c <- related companies cid ;;
          ret (bool_decide (Company.user c = User.id u)
               && (bool_decide (Project.status project = draft)
                   || bool_decide (Project.status project = p_rejected)))
      end.

(** The fields of the instance a [ProjectForm] writes. *)
Definition ProjectForm_save (form : ProjectForm) (uni : pk) (p : Project.t) : Project.t :=
  {| Project.poster_type := Project.poster_type p;
     Project.company := Project.company p;
     Project.university := uni;
     Project.posted_by_university := Project.posted_by_university p;
     Project.title := form_title form;
     Project.status := Project.status p;
     Project.rejection_reason := Project.rejection_reason p;
     Project.submitted_for_review_at := Project.submitted_for_review_at p;
     Project.approved_at := Project.approved_at p;
     Project.completed_at := Project.completed_at p |}.

(** [ProjectUpdateView] answering a POST: the form is bound to the project,
    with the university required, and saved when it is valid. *)
Definition ProjectUpdateView (u : User.t) (pk_ : pk) (form : ProjectForm) : Eff Response :=
  dispatch u (ProjectUpdateView_test_func u pk_)
    (project <- get_object_or_404 projects pk_ (λ _, true) ;;
     d <- query id ;;
     match form_university form with
     | Some uni =>
         if match universities d !! uni with
            | Some row => University.is_verified row
            | None => false
            end && negb (bool_decide (form_title form = ""))
         then
           add_message success "Project updated successfully!" ;;
           db_write (set_projects <[pk_ := ProjectForm_save form uni project]>) ;;
           ret (Redirect "projects:detail")
         else ret (Render "projects/edit.html")
     | None => ret (Render "projects/edit.html")
     end).

(** *** PendingReviewView *)


(** ** apps/projects/views.py: milestones and deliverables *)

(** The test shared, statement for statement, by the views that manage a
    project's milestones and deliverables ([CreateMilestoneView],
    [UpdateMilestoneView], [DeleteMilestoneView], [ReviewDeliverableView]):
    the company of the project, or the university of a project it posted
    itself. [project] is how the view reaches the project, which it does
    only once the user has the profile of its role. *)
Definition poster_test (u : User.t) (project : Eff Project.t) : Eff bool :=
  match User.user_type u with
  | company =>
      profile <- query (λ d, company_profile d u) ;;
      if bool_decide (is_Some profile) then
        project <- project ;;
        match Project.company project with
        | None => ret false
        | Some cid =>
            c <- related companies cid ;;
            ret (bool_decide (Company.user c = User.id u))
        end
      else ret false
  | university =>
      profile <- query (λ d, university_profile d u) ;;
      if bool_decide (is_Some profile) then
        project <- project ;;
        if Project.posted_by_university project then
          uni <- related universities (Project.university project) ;;
          ret (bool_decide (University.user uni = User.id u))
        else ret false
      else ret false
  | student => ret false
  end.

(** *** CreateMilestoneView *)

(** The cleaned fields of [MilestoneForm]; the percentage is in hundredths
    (two decimal places). *)
Record MilestoneForm := {
  form_milestone_title : string;
  form_milestone_description : string;
  form_payment_percentage : Z;
}.

(** [MilestoneForm.clean_payment_percentage] together with the required
    text fields (the due date, required as well, is not kept in the row). *)
Definition MilestoneForm_is_valid (form : MilestoneForm) : bool :=
  negb (bool_decide (form_milestone_title form = ""))
  && negb (bool_decide (form_milestone_description form = ""))
  && negb (bool_decide (form_payment_percentage form < 0)%Z
           || bool_decide (form_payment_percentage form > 10000)%Z).

(** [project.milestones.aggregate(max_order=Max('order'))['max_order']]:
    nothing for a project without milestones. *)
Definition max_order (d : DB) (project_id : pk) : option Z :=
  match map (λ kv, Milestone.order kv.2) (project_milestones d project_id) with
  | [] => None
  | o :: os => Some (foldr Z.max o os)
  end.

(** Python's [x or 0] on an optional integer. *)
Definition or_zero (x : option Z) : Z :=
  match x with
  | None => 0
  | Some n => if bool_decide (n = 0) then 0 else n
  end.

(** [CreateMilestoneView.test_func]. *)
Definition CreateMilestoneView_test_func (u : User.t) (pk_ : pk) : Eff bool :=
  project <- get_object_or_404 projects pk_ (λ _, true) ;;
  poster_test u (ret project).

(** [CreateMilestoneView.form_valid]. *)
Definition CreateMilestoneView_form_valid (pk_ : pk) (form : MilestoneForm)
  : Eff Response :=
  _ <- get_object_or_404 projects pk_ (λ _, true) ;;
  max_order <- query (λ d, or_zero (max_order d pk_)) ;;
  let instance :=
    {| Milestone.project := pk_;
       Milestone.title := form_milestone_title form;
       Milestone.order := max_order + 1;
       Milestone.completed_at := None;
       Milestone.status := m_pending |} in
  add_message success "Milestone created successfully!" ;;
  db_write (λ d, set_milestones <[next_pk (milestones d) := instance]> d) ;;
  ret (Redirect "projects:workspace").

Definition CreateMilestoneView (u : User.t) (pk_ : pk) (form : MilestoneForm)
  : Eff Response :=
  dispatch u (CreateMilestoneView_test_func u pk_)
    (if MilestoneForm_is_valid form then CreateMilestoneView_form_valid pk_ form
     else ret (Render "projects/create_milestone.html")).

(** *** SubmitDeliverableView *)






(** *** ReviewDeliverableView, with its test *)

(** [ReviewDeliverableView.test_func]. *)
Definition ReviewDeliverableView_test_func (u : User.t) (deliverable_id : pk)
  : Eff bool :=
  deliverable <- get_object_or_404 deliverables deliverable_id (λ _, true) ;;
  poster_test u (related projects (Deliverable.project deliverable)).

Definition ReviewDeliverableView (now : datetime) (u : User.t) (post : POST)
    (pk_ deliverable_id : pk) : Eff Response :=
  dispatch u (ReviewDeliverableView_test_func u deliverable_id)
    (ReviewDeliverableView_post now post pk_ deliverable_id).

(** *** UniversityApplicationsView *)



(** ** Comma-separated text fields (apps/accounts/models.py,
    apps/projects/models.py, apps/projects/forms.py)

    Text is taken to be ASCII: the white space [str.strip] removes is the
    ASCII white space. *)

(** [ch.isspace()] on an ASCII character: tab, line feed, vertical tab, form
    feed, carriage return, the four separators 28-31, and the space. *)
Definition is_space (c : ascii) : bool :=
  let n := nat_of_ascii c in
  ((9 <=? n)%nat && (n <=? 13)%nat) || ((28 <=? n)%nat && (n <=? 32)%nat).

(** [s.split(sep)] for a one-character separator. *)
Fixpoint str_split (sep : ascii) (s : string) : list string :=
  match s with
  | EmptyString => [EmptyString]
  | String c s' =>
      if Ascii.eqb c sep then EmptyString :: str_split sep s'
      else
        match str_split sep s' with
        | piece :: rest => String c piece :: rest
        | [] => [String c EmptyString]
        end
  end.

(** [s.lstrip()]. *)
Fixpoint lstrip (s : string) : string :=
  match s with
  | EmptyString => EmptyString
  | String c s' => if is_space c then lstrip s' else s
  end.

(** [s.rstrip()]. *)
Fixpoint rstrip (s : string) : string :=
  match s with
  | EmptyString => EmptyString
  | String c s' =>
      match rstrip s' with
      | EmptyString => if is_space c then EmptyString else String c EmptyString
      | r => String c r
      end
  end.

(** [s.strip()]. *)
Definition strip (s : string) : string := rstrip (lstrip s).

(** [[x.strip() for x in s.split(',') if x.strip()]], the body of
    [Student.get_skills_list] and [Project.get_required_skills_list]. *)
Definition comma_list (s : string) : list string :=
  List.filter (λ x, negb (bool_decide (x = ""))) (map strip (str_split ","%char s)).

(** [Student.get_skills_list]. *)
Definition Student_get_skills_list (s : Student.t) : list string :=
  comma_list (Student.skills s).

(** [Student.get_preferred_domains_list]. Its comprehension has the
    [for ... in ... if ...] clause twice: for every non-blank piece of the
    text it runs over the pieces again and yields the non-blank ones,
    stripped. *)
Definition Student_get_preferred_domains_list (s : Student.t) : list string :=
  let pieces := str_split ","%char (Student.preferred_domains s) in
  flat_map
    (λ _, map strip
            (List.filter (λ domain, negb (bool_decide (strip domain = ""))) pieces))
    (List.filter (λ domain, negb (bool_decide (strip domain = ""))) pieces).

(** [Project.get_eligible_departments_list] and
    [Project.get_eligible_years_list], on the stored text. *)
Definition Project_get_eligible_list (stored : string) : list string :=
  if bool_decide (stored = "") then [] else comma_list stored.

(** What [ProjectForm.save] stores for a multiple-choice selection:
    [','.join(selection)], the empty text for an empty selection. *)
Definition ProjectForm_save_selection (selection : list string) : string :=
  match selection with
  | [] => ""
  | _ => String.concat "," selection
  end.

(** [ProjectForm.DEPARTMENT_CHOICES], the stored values. *)
Definition DEPARTMENT_CHOICES : list string :=
  ["computer_science"; "information_technology"; "electronics"; "mechanical";
   "civil"; "electrical"; "chemical"; "biotechnology"; "mba"; "bba"; "bcom";
   "bca"; "mca"; "design"; "architecture"; "data_science"; "ai_ml"].
(** * Specification *)

Local Open Scope Z_scope.

(** ** Accepting and rejecting an application *)



(** ** Reviewing a project *)


(** ** Creating a project *)


(** ** Applying to a project *)

(** An application of the student to the project is on record. *)
Definition applied (d : DB) (project_id student_pk : pk) : Prop :=
  ∃ k a, applications d !! k = Some a
         ∧ ProjectApplication.project a = project_id
         ∧ ProjectApplication.student a = student_pk.

(** The pending application [ProjectApplyView] files for a form. *)
Definition pending_application (project_id student_pk : pk)
    (form : ProjectApplicationForm) : ProjectApplication.t :=
  {| ProjectApplication.project := project_id;
     ProjectApplication.student := student_pk;
     ProjectApplication.cover_letter := form_cover_letter form;
     ProjectApplication.proposed_approach := form_proposed_approach form;
     ProjectApplication.portfolio_links := form_portfolio_links form;
     ProjectApplication.is_team_application := form_is_team_application form;
     ProjectApplication.status := a_pending;
     ProjectApplication.reviewed_at := None |}.

(** The conditions under which an application is filed. *)
Definition may_apply (d : DB) (u : User.t) (pk_ : pk) (form : ProjectApplicationForm)
    (student_pk : pk) : Prop :=
  User.is_authenticated u = true
  ∧ User.user_type u = student
  ∧ (∃ s, student_profile d u = Some (student_pk, s))
  ∧ (∃ p, projects d !! pk_ = Some p ∧ Project.status p = open)
  ∧ ¬ applied d pk_ student_pk
  ∧ form_cover_letter form ≠ "".

(** ** The life of a student profile *)

(** The requests that create or change a [Student] row. *)
Inductive StudentRequest :=
  | register
  | profile_edit (u : User.t) (form : StudentProfileForm)
  | verification (now : datetime) (u : User.t) (post : POST) (student_id : pk).

(** The database after one request. *)
Definition perform (req : StudentRequest) (d : DB) : DB :=
  match req with
  | register => store (RegisterView_post (request_on d)).2
  | profile_edit u form => store (ProfileEditView u form (request_on d)).2
  | verification now u post student_id =>
      store (StudentVerificationActionView now u post student_id (request_on d)).2
  end.

(** The database after a sequence of requests, first to last. *)
Fixpoint perform_all (reqs : list StudentRequest) (d : DB) : DB :=
  match reqs with
  | [] => d
  | req :: reqs => perform_all reqs (perform req d)
  end.

(** What the requests maintain of every student row: once a university is
    chosen or the student is approved, the university e-mail is filled in. *)
Definition student_invariant (s : Student.t) : Prop :=
  Student.verification_status s = v_approved ∨ is_Some (Student.university s) →
  Student.university_email s ≠ "".

(** ** Reviewing a deliverable *)


(** ** Progress *)








(** * Sample data *)

(** One university (user 20), a verified company (user 10) and an unverified
    one (user 11), one student (user 30) who is not verified; projects 1 and
    3 are the verified company's, project 2 is the university's own; the
    student has an application to projects 1 and 2 and none to project 3. *)
Definition sample_university : University.t :=
  {| University.user := 20; University.name := "U"; University.is_verified := true |}.

Definition sample_company : Company.t :=
  {| Company.user := 10; Company.name := "C"; Company.contact_person := "P";
     Company.contact_email := "c@c.example";
     Company.company_registration_number := "R1";
     Company.verification_document := Some "doc.pdf";
     Company.is_verified := true; Company.verification_status := v_approved;
     Company.verified_by := Some 1; Company.rejection_reason := "";
     Company.verified_at := Some 5; Company.total_projects_posted := 1 |}.

Definition unverified_company : Company.t :=
  {| Company.user := 11; Company.name := "D"; Company.contact_person := "Q";
     Company.contact_email := "d@d.example";
     Company.company_registration_number := "R2";
     Company.verification_document := Some "doc2.pdf";
     Company.is_verified := false; Company.verification_status := v_pending;
     Company.verified_by := None; Company.rejection_reason := "";
     Company.verified_at := None; Company.total_projects_posted := 0 |}.

Definition sample_student : Student.t :=
  {| Student.user := 30; Student.university := Some 1; Student.student_id := "S1";
     Student.department := "cs"; Student.year := "2"; Student.skills := "";
     Student.preferred_domains := "";
     Student.is_verified := false; Student.verification_status := v_pending;
     Student.university_email := "s@u.example"; Student.rejection_reason := "";
     Student.verified_by := None; Student.verified_at := None |}.

Definition company_project (st : ProjectStatus) : Project.t :=
  {| Project.poster_type := poster_company; Project.company := Some 1;
     Project.university := 1; Project.posted_by_university := false;
     Project.title := "P1"; Project.status := st; Project.rejection_reason := "";
     Project.submitted_for_review_at := Some 6; Project.approved_at := Some 7;
     Project.completed_at := None |}.

Definition university_project (st : ProjectStatus) : Project.t :=
  {| Project.poster_type := poster_university; Project.company := None;
     Project.university := 1; Project.posted_by_university := true;
     Project.title := "P2"; Project.status := st; Project.rejection_reason := "";
     Project.submitted_for_review_at := None; Project.approved_at := Some 7;
     Project.completed_at := None |}.

Definition sample_application (project_id : pk) (st : ApplicationStatus)
  : ProjectApplication.t :=
  {| ProjectApplication.project := project_id; ProjectApplication.student := 1;
     ProjectApplication.cover_letter := "hello";
     ProjectApplication.proposed_approach := "";
     ProjectApplication.portfolio_links := "";
     ProjectApplication.is_team_application := false;
     ProjectApplication.status := st; ProjectApplication.reviewed_at := None |}.

Definition sample_db_with (pst : ProjectStatus) (ast : ApplicationStatus) : DB :=
  {| users := {[ 10 := company; 11 := company; 20 := university; 30 := student ]};
     universities := {[ 1 := sample_university ]};
     companies := {[ 1 := sample_company; 2 := unverified_company ]};
     students := {[ 1 := sample_student ]};
     projects := {[ 1 := company_project pst; 2 := university_project pst;
                    3 := company_project open ]};
     project_assigned_students := ∅;
     applications := {[ 1 := sample_application 1 ast;
                        2 := sample_application 2 ast ]};
     milestones := ∅;
     deliverables := ∅ |}.

Definition sample_db : DB := sample_db_with open a_pending.

Definition company_user : User.t :=
  {| User.id := 10; User.is_authenticated := true; User.user_type := company |}.

Definition unverified_company_user : User.t :=
  {| User.id := 11; User.is_authenticated := true; User.user_type := company |}.

Definition university_user : User.t :=
  {| User.id := 20; User.is_authenticated := true; User.user_type := university |}.

Definition student_user : User.t :=
  {| User.id := 30; User.is_authenticated := true; User.user_type := student |}.

Definition action (a : string) : gmap string string := {[ "action" := a ]}.

Definition sample_project_form : ProjectForm :=
  {| form_university := Some 1; form_title := "New project" |}.

Definition sample_application_form : ProjectApplicationForm :=
  {| form_cover_letter := "I would like to join";
     form_proposed_approach := ""; form_portfolio_links := "";
     form_is_team_application := false |}.

(** The sample student after a rejection with a reason. *)
Definition rejected_student : Student.t :=
  Student.set_rejection_reason "Not enrolled"
    (Student.set_verification false v_rejected sample_student).

Definition rejected_company : Company.t :=
  Company.set_rejection_reason "No certificate"
    (Company.set_verification false v_rejected unverified_company).

Definition db_with_rejections : DB :=
  set_companies <[2 := rejected_company]>
    (set_students <[1 := rejected_student]> sample_db).

(** A campus with one verified university (user 20) and nobody else. *)
Definition campus_db : DB :=
  {| users := {[ 20 := university ]};
     universities := {[ 1 := sample_university ]};
     companies := ∅; students := ∅; projects := ∅;
     project_assigned_students := ∅; applications := ∅;
     milestones := ∅; deliverables := ∅ |}.

(** The user the first registration on [campus_db] creates. *)
Definition newcomer : User.t :=
  {| User.id := next_pk (users campus_db); User.is_authenticated := true;
     User.user_type := student |}.

(** A profile form with the university chosen and the student id left blank. *)
Definition form_without_student_id : StudentProfileForm :=
  {| form_student_university := Some 1; form_student_id := "";
     form_department := "cs"; form_year := "2";
     form_university_email := "n@u.example";
     form_skills := ""; form_preferred_domains := "" |}.

(** A profile form with the university left blank. *)
Definition form_without_university : StudentProfileForm :=
  {| form_student_university := None; form_student_id := "S7";
     form_department := "cs"; form_year := "2";
     form_university_email := "n@u.example";
     form_skills := ""; form_preferred_domains := "" |}.

(** A workspace: project 1 with milestone 1, to which deliverable 1
    (approved) and deliverable 2 (not yet reviewed) are linked. *)
Definition sample_milestone (st : MilestoneStatus) : Milestone.t :=
  {| Milestone.project := 1; Milestone.title := "M"; Milestone.order := 1;
     Milestone.completed_at := None; Milestone.status := st |}.

Definition sample_deliverable (approved : bool) : Deliverable.t :=
  {| Deliverable.project := 1; Deliverable.student := 1;
     Deliverable.milestone := Some 1; Deliverable.title := "D";
     Deliverable.is_approved := approved; Deliverable.feedback := "";
     Deliverable.revision_required := false; Deliverable.reviewed_at := None |}.

Definition workspace_db : DB :=
  set_milestones (λ _, {[ 1 := sample_milestone submitted ]})
    (set_deliverables (λ _, {[ 1 := sample_deliverable true;
                               2 := sample_deliverable false ]})
       (sample_db_with in_progress accepted)).



(** * Further specification *)

(** ** Who may act on an application *)

(** [u] is the user of the company the application's project belongs to. *)
Definition owning_company_of_application (d : DB) (u : User.t) (application_id : pk)
  : Prop :=
  User.is_authenticated u = true
  ∧ User.user_type u = company
  ∧ is_Some (company_profile d u)
  ∧ ∃ application project cid c,
      applications d !! application_id = Some application
      ∧ projects d !! ProjectApplication.project application = Some project
      ∧ Project.company project = Some cid
      ∧ companies d !! cid = Some c
      ∧ Company.user c = User.id u.

(** [u] is the user of the university that posted the application's project
    itself. *)
Definition posting_university_of_application (d : DB) (u : User.t)
    (application_id : pk) : Prop :=
  User.is_authenticated u = true
  ∧ User.user_type u = university
  ∧ is_Some (university_profile d u)
  ∧ ∃ application project uni,
      applications d !! application_id = Some application
      ∧ projects d !! ProjectApplication.project application = Some project
      ∧ Project.posted_by_university project = true
      ∧ universities d !! Project.university project = Some uni
      ∧ University.user uni = User.id u.

(** An anonymous visitor. *)
Definition anonymous : User.t :=
  {| User.id := 0; User.is_authenticated := false; User.user_type := student |}.

(** ** One application per student and project *)

(** [unique_together = ['project', 'student']]. *)
Definition unique_applications (d : DB) : Prop :=
  ∀ k1 k2 a1 a2,
    applications d !! k1 = Some a1 →
    applications d !! k2 = Some a2 →
    ProjectApplication.project a1 = ProjectApplication.project a2 →
    ProjectApplication.student a1 = ProjectApplication.student a2 →
    k1 = k2.

(** The requests that create or change a [ProjectApplication] row. *)
Inductive ApplicationRequest :=
  | apply_to (u : User.t) (pk_ : pk) (form : ProjectApplicationForm)
  | company_action (now : datetime) (u : User.t) (post : POST) (pk_ application_id : pk)
  | university_action (now : datetime) (u : User.t) (post : POST) (application_id : pk).

Definition perform_application (req : ApplicationRequest) (d : DB) : DB :=
  match req with
  | apply_to u pk_ form => store (ProjectApplyView u pk_ form (request_on d)).2
  | company_action now u post pk_ application_id =>
      store (ApplicationActionView now u post pk_ application_id (request_on d)).2
  | university_action now u post application_id =>
      store (UniversityApplicationActionView now u post application_id (request_on d)).2
  end.

Fixpoint perform_applications (reqs : list ApplicationRequest) (d : DB) : DB :=
  match reqs with
  | [] => d
  | req :: reqs => perform_applications reqs (perform_application req d)
  end.

(** What an action view does to the table of applications: nothing, or one
    row rewritten with its project and student kept. *)
Definition rewrites_one_application (d d' : DB) (application_id : pk) : Prop :=
  applications d' = applications d
  ∨ ∃ a a', applications d !! application_id = Some a
            ∧ ProjectApplication.project a' = ProjectApplication.project a
            ∧ ProjectApplication.student a' = ProjectApplication.student a
            ∧ applications d' = <[application_id := a']> (applications d).


(** ** The statuses a project goes through *)

(** The requests that create or change a [Project] row. *)
Inductive ProjectRequest :=
  | create_project (now : datetime) (u : User.t) (form : ProjectForm)
  | update_project (u : User.t) (pk_ : pk) (form : ProjectForm)
  | review_project (now : datetime) (u : User.t) (post : POST) (pk_ : pk)
  | act_on_application (req : ApplicationRequest).

Definition perform_project (req : ProjectRequest) (d : DB) : DB :=
  match req with
  | create_project now u form => store (ProjectCreateView now u form (request_on d)).2
  | update_project u pk_ form => store (ProjectUpdateView u pk_ form (request_on d)).2
  | review_project now u post pk_ =>
      store (ProjectReviewView now u post pk_ (request_on d)).2
  | act_on_application req => perform_application req d
  end.

Fixpoint perform_projects (reqs : list ProjectRequest) (d : DB) : DB :=
  match reqs with
  | [] => d
  | req :: reqs => perform_projects reqs (perform_project req d)
  end.

(** The statuses the views write. *)
Definition written_status (st : ProjectStatus) : Prop :=
  st = pending_review ∨ st = open ∨ st = p_rejected ∨ st = in_progress.

(** A project row of [d'] is new or rewritten with a written status, or has
    the status it had in [d]. *)
Definition status_step (d d' : DB) : Prop :=
  ∀ k p', projects d' !! k = Some p' →
          written_status (Project.status p')
          ∨ ∃ p, projects d !! k = Some p ∧ Project.status p = Project.status p'.

(** ** Deliverables *)



Definition sample_milestone_form : MilestoneForm :=
  {| form_milestone_title := "Design"; form_milestone_description := "Mock-ups";
     form_payment_percentage := 2500 |}.


(** ** The poster of a project *)

(** [u] is the user of the project's company, or of the university that
    posted the project itself. *)
Definition poster_of_project (d : DB) (u : User.t) (p : Project.t) : Prop :=
  User.is_authenticated u = true
  ∧ ((User.user_type u = company
      ∧ is_Some (company_profile d u)
      ∧ ∃ cid c, Project.company p = Some cid
                 ∧ companies d !! cid = Some c
                 ∧ Company.user c = User.id u)
     ∨ (User.user_type u = university
        ∧ is_Some (university_profile d u)
        ∧ Project.posted_by_university p = true
        ∧ ∃ uni, universities d !! Project.university p = Some uni
                 ∧ University.user uni = User.id u)).

(** ** Comma-separated text fields *)

(** The character occurs in the text. *)
Fixpoint has_char (c : ascii) (s : string) : bool :=
  match s with
  | EmptyString => false
  | String c' s' => Ascii.eqb c' c || has_char c s'
  end.

(** An entry as the list readers return it: not empty, no comma, no white
    space at either end. *)
Definition clean_entry (x : string) : bool :=
  negb (bool_decide (x = "")) && negb (has_char ","%char x) && bool_decide (strip x = x).
(** * Properties *)

(** ** Lookups *)

Lemma find_row_Some {A} (P : A → bool) (table : gmap Z A) k a :
  find_row P table = Some (k, a) → table !! k = Some a ∧ P a = true.
Proof.
  unfold find_row. intros H. apply find_some in H as [Hin HP].
  split; [|exact HP].
  apply elem_of_map_to_list. apply list_elem_of_In. exact Hin.
Qed.

Lemma find_row_None {A} (P : A → bool) (table : gmap Z A) k a :
  find_row P table = None → table !! k = Some a → P a = false.
Proof.
  unfold find_row. intros H Hk.
  apply elem_of_map_to_list, list_elem_of_In in Hk.
  eapply find_none in H; [|exact Hk]. exact H.
Qed.

Lemma foldr_max_upper (l : list Z) (k : Z) : k ∈ l → (k ≤ foldr Z.max 0 l)%Z.
Proof.
  induction l as [|x l IH]; simpl; [by intros ?%elem_of_nil|].
  intros [->|Hin]%elem_of_cons; [lia|]. specialize (IH Hin). lia.
Qed.

Lemma next_pk_fresh {A} (table : gmap Z A) : table !! next_pk table = None.
Proof.
  apply not_elem_of_dom. intros Hin. apply elem_of_elements in Hin.
  apply foldr_max_upper in Hin. unfold next_pk in Hin. lia.
Qed.

(** Unfolding of the effect combinators. *)
Ltac run_eff :=
  repeat (unfold dispatch, get_object_or_404, related, query, bind, ret, raise,
            atomic, try_except, db_write, add_message, request_on, failing_after in *;
          simpl in * ).

(** ** Accepting and rejecting an application *)

Section Accept.
Variables (now : datetime) (post : POST) (d : DB) (application_id : pk).
Variables (application : ProjectApplication.t) (project : Project.t).
Hypothesis Happlication : applications d !! application_id = Some application.
Hypothesis Hproject :
  projects d !! ProjectApplication.project application = Some project.





(** On every action but [shortlist] the two views leave the same database. *)
Lemma action_views_agree pk_ :
  post !! "action" ≠ Some "shortlist" →
  store (ApplicationActionView_post now post pk_ application_id (request_on d)).2
  = store (UniversityApplicationActionView_post now post application_id
             (request_on d)).2.
Proof.
  intros Haction.
  unfold ApplicationActionView_post, UniversityApplicationActionView_post. run_eff.
  rewrite Happlication. simpl. rewrite Hproject. simpl.
  repeat (case_bool_decide; simpl; try done).
Qed.
End Accept.



(** The storage layer failing after the first write of an accept: the
    accepted application is rolled back with the rest. *)
Example accept_rolls_back :
  let part :=
    ApplicationActionView 100 company_user (action "accept") 1 1
      (failing_after 1 sample_db) in
  part.1 = Raise DatabaseError ∧ store part.2 = sample_db.
Proof. vm_compute. split; reflexivity. Qed.

(** Outside [atomic] a failing write leaves the earlier ones in place:
    creating a project bumps the company's counter, and when the insert of
    the project then fails the bumped counter stays. *)
Example create_project_is_not_atomic :
  let part :=
    ProjectCreateView 100 company_user sample_project_form
      (failing_after 1 sample_db) in
  part.1 = Raise DatabaseError
  ∧ projects (store part.2) = projects sample_db
  ∧ Company.total_projects_posted <$> companies (store part.2) !! 1 = Some 2
  ∧ Company.total_projects_posted <$> companies sample_db !! 1 = Some 1.
Proof. vm_compute. repeat split; reflexivity. Qed.



(** C8. The company's action view has no [shortlist] branch: the owning
    company posting [shortlist] gets its redirect and the application stays
    pending, while the owning university posting [shortlist] through its own
    view gets the application shortlisted. *)
Theorem company_view_drops_shortlist :
  let via_company :=
    ApplicationActionView 100 company_user (action "shortlist") 1 1
      (request_on sample_db) in
  let via_university :=
    UniversityApplicationActionView 100 university_user (action "shortlist") 2
      (request_on sample_db) in
  via_company.1 = Ok (Redirect "projects:manage_applications")
  ∧ store via_company.2 = sample_db
  ∧ ProjectApplication.status <$> applications (store via_company.2) !! 1
    = Some a_pending
  ∧ via_university.1 = Ok (Redirect "projects:university_applications")
  ∧ ProjectApplication.status <$> applications (store via_university.2) !! 2
    = Some shortlisted.
Proof. vm_compute. repeat split; reflexivity. Qed.

(** ** Reviewing a project *)






(** ** Creating a project *)






(** ** Applying to a project *)

Lemma application_exists_applied d project_id student_pk :
  application_exists d project_id student_pk = true ↔ applied d project_id student_pk.
Proof.
  unfold application_exists, applied. rewrite bool_decide_eq_true. split.
  - intros [[k a] Hfind]. apply find_row_Some in Hfind as [Hk HP].
    apply andb_true_iff in HP as [H1 H2].
    apply bool_decide_eq_true in H1, H2. eauto.
  - intros (k & a & Hk & H1 & H2).
    destruct (find_row _ (applications d)) as [kv|] eqn:Hfind; [eauto|].
    eapply find_row_None in Hfind; [|exact Hk].
    rewrite !bool_decide_eq_true_2 in Hfind by done. done.
Qed.

Lemma application_exists_not_applied d project_id student_pk :
  application_exists d project_id student_pk = false ↔ ¬ applied d project_id student_pk.
Proof.
  rewrite <- application_exists_applied.
  destruct (application_exists d project_id student_pk); split; congruence.
Qed.

Lemma apply_files_application u pk_ form d student_pk :
  may_apply d u pk_ form student_pk →
  let done := ProjectApplyView u pk_ form (request_on d) in
  done.1 = Ok (Redirect "projects:my_applications")
  ∧ messages done.2 = [(success, "Application submitted successfully")]
  ∧ applications d !! next_pk (applications d) = None
  ∧ store done.2
    = set_applications
        <[next_pk (applications d) := pending_application pk_ student_pk form]> d.
Proof.
  intros (Hauth & Htype & [s Hprofile] & (p & Hp & Hopen) & Hnew & Hcover).
  apply application_exists_not_applied in Hnew.
  unfold ProjectApplyView, ProjectApplyView_test_func, ProjectApplyView_form_valid.
  run_eff.
  rewrite Hauth; simpl. rewrite Htype; simpl.
  repeat (rewrite Hprofile; simpl). repeat (rewrite Hp; simpl).
  rewrite Hopen; simpl. rewrite Hnew; simpl.
  rewrite (bool_decide_eq_false_2 _ Hcover); simpl.
  repeat (rewrite Hp; simpl). repeat (rewrite Hprofile; simpl).
  repeat split; try done. apply next_pk_fresh.
Qed.

Lemma apply_outcome u pk_ form d :
  let done := ProjectApplyView u pk_ form (request_on d) in
  (∃ student_pk, may_apply d u pk_ form student_pk)
  ∨ (store done.2 = d ∧ done.1 ≠ Ok (Redirect "projects:my_applications")).
Proof.
  unfold ProjectApplyView, ProjectApplyView_test_func, ProjectApplyView_form_valid,
    may_apply.
  run_eff.
  destruct (User.is_authenticated u) eqn:Hauth; simpl; [|by right].
  case_bool_decide as Htype; simpl; [|by right].
  destruct (student_profile d u) as [[student_pk s]|] eqn:Hprofile; simpl; [|by right].
  destruct (projects d !! pk_) as [p|] eqn:Hp; simpl; [|by right].
  case_bool_decide as Hopen; simpl; [|by right].
  destruct (application_exists d pk_ student_pk) eqn:Hdup; simpl; [by right|].
  case_bool_decide as Hcover; simpl; [by right|].
  left. exists student_pk. apply application_exists_not_applied in Hdup.
  repeat split; eauto.
Qed.

Lemma apply_refusals u pk_ form d student_pk s p :
  User.is_authenticated u = true →
  User.user_type u = student →
  student_profile d u = Some (student_pk, s) →
  projects d !! pk_ = Some p →
  let done := ProjectApplyView u pk_ form (request_on d) in
  (Project.status p ≠ open →
   done.1 = Raise PermissionDenied
   ∧ messages done.2 = [(warning, "This project is not open for applications.")]
   ∧ store done.2 = d)
  ∧ (Project.status p = open → applied d pk_ student_pk →
     done.1 = Raise PermissionDenied
     ∧ messages done.2 = [(warning, "You have already applied to this project!")]
     ∧ store done.2 = d).
Proof.
  intros Hauth Htype Hprofile Hp.
  unfold ProjectApplyView, ProjectApplyView_test_func. run_eff.
  rewrite Hauth; simpl. rewrite Htype; simpl.
  repeat (rewrite Hprofile; simpl). repeat (rewrite Hp; simpl).
  split.
  - intros Hclosed. rewrite (bool_decide_eq_false_2 _ Hclosed). simpl. done.
  - intros Hopen Hdup. rewrite (bool_decide_eq_true_2 _ Hopen). simpl.
    apply application_exists_applied in Hdup. rewrite Hdup. simpl. done.
Qed.

(** C3, as the code has it. [ProjectApplyView] files a new pending
    application exactly when the actor is a logged-in student with a
    profile - verified or not -, the project is open, no application of the
    student to the project is on record, and the form carries a cover
    letter. A project that is not open is refused with 403 and the message
    "This project is not open for applications.", whether or not the student
    has applied before; an open project the student has applied to is
    refused with 403 and "You have already applied to this project!". A
    refusal leaves the database as it was. *)
Theorem apply_contract (u : User.t) (pk_ : pk) (form : ProjectApplicationForm) (d : DB) :
  let done := ProjectApplyView u pk_ form (request_on d) in
  (∀ student_pk,
     may_apply d u pk_ form student_pk →
     done.1 = Ok (Redirect "projects:my_applications")
     ∧ applications d !! next_pk (applications d) = None
     ∧ store done.2
       = set_applications
           <[next_pk (applications d) := pending_application pk_ student_pk form]> d)
  ∧ (store done.2 ≠ d → ∃ student_pk, may_apply d u pk_ form student_pk)
  ∧ (∀ student_pk s p,
       User.is_authenticated u = true →
       User.user_type u = student →
       student_profile d u = Some (student_pk, s) →
       projects d !! pk_ = Some p →
       (Project.status p ≠ open →
        done.1 = Raise PermissionDenied
        ∧ messages done.2 = [(warning, "This project is not open for applications.")]
        ∧ store done.2 = d)
       ∧ (Project.status p = open → applied d pk_ student_pk →
          done.1 = Raise PermissionDenied
          ∧ messages done.2 = [(warning, "You have already applied to this project!")]
          ∧ store done.2 = d)).
Proof.
  repeat apply conj.
  - intros student_pk Hmay.
    destruct (apply_files_application u pk_ form d student_pk Hmay)
      as (H1 & _ & H2 & H3).
    done.
  - intros Hchanged. destruct (apply_outcome u pk_ form d) as [H|[H _]]; done.
  - intros student_pk s p Hauth Htype Hprofile Hp.
    by eapply apply_refusals.
Qed.

Lemma apply_contract_witness :
  let done :=
    ProjectApplyView student_user 3 sample_application_form (request_on sample_db) in
  done.1 = Ok (Redirect "projects:my_applications")
  ∧ applications sample_db !! next_pk (applications sample_db) = None
  ∧ store done.2
    = set_applications
        <[next_pk (applications sample_db) :=
            pending_application 3 1 sample_application_form]> sample_db.
Proof.
  apply (proj1 (apply_contract student_user 3 sample_application_form sample_db) 1).
  repeat split.
  - exists sample_student. vm_compute. reflexivity.
  - exists (company_project open). split; vm_compute; reflexivity.
  - apply application_exists_not_applied. vm_compute. reflexivity.
  - discriminate.
Defined.

(** C3, counterexample. The sample student is not verified (verification
    still pending) and has no application to project 3, which is open: the
    application is filed. *)
Lemma unverified_student_applies :
  let done :=
    ProjectApplyView student_user 3 sample_application_form (request_on sample_db) in
  student_profile sample_db student_user = Some (1, sample_student)
  ∧ Student.is_verified sample_student = false
  ∧ Student.verification_status sample_student = v_pending
  ∧ applications sample_db !! 3 = None
  ∧ done.1 = Ok (Redirect "projects:my_applications")
  ∧ applications (store done.2) !! 3
    = Some (pending_application 3 1 sample_application_form).
Proof. vm_compute. repeat split; reflexivity. Qed.

(** ** Verification by a university *)

Lemma approve_student now u post d university_id uni student_id s :
  User.is_authenticated u = true →
  User.user_type u = university →
  university_profile d u = Some (university_id, uni) →
  post !! "action" = Some "approve" →
  students d !! student_id = Some s →
  Student.university s = Some university_id →
  let done := StudentVerificationActionView now u post student_id (request_on d) in
  done.1 = Ok (Redirect "accounts:university_students")
  ∧ store done.2
    = set_students
        <[student_id := Student.set_verified_by (Some university_id) (Some now)
                          (Student.set_verification true v_approved s)]> d.
Proof.
  intros Hauth Htype Hprofile Haction Hs Huni.
  unfold StudentVerificationActionView, UniversityRequiredMixin_test_func,
    StudentVerificationActionView_post.
  run_eff.
  rewrite Hauth; simpl. rewrite Htype; simpl.
  repeat (rewrite Hprofile; simpl). rewrite Hs; simpl.
  rewrite (bool_decide_eq_true_2 _ Huni); simpl.
  rewrite Haction; simpl. done.
Qed.

Lemma approve_company now u post d university_id uni company_id c :
  User.is_authenticated u = true →
  User.user_type u = university →
  university_profile d u = Some (university_id, uni) →
  post !! "action" = Some "approve" →
  companies d !! company_id = Some c →
  let done := CompanyVerificationActionView now u post company_id (request_on d) in
  done.1 = Ok (Redirect "accounts:university_companies")
  ∧ store done.2
    = set_companies
        <[company_id := Company.set_verified_by (Some university_id) (Some now)
                          (Company.set_verification true v_approved c)]> d.
Proof.
  intros Hauth Htype Hprofile Haction Hc.
  unfold CompanyVerificationActionView, UniversityRequiredMixin_test_func,
    CompanyVerificationActionView_post.
  run_eff.
  rewrite Hauth; simpl. rewrite Htype; simpl.
  repeat (rewrite Hprofile; simpl). rewrite Hc; simpl.
  rewrite Haction; simpl. done.
Qed.

(** C7, as the code has it. The approve action, on a student of the acting
    university and on any company, sets [is_verified], sets
    [verification_status] to approved, [verified_by] to the acting
    university and [verified_at] to the time of the request; it leaves
    [rejection_reason] as it was. *)
Theorem approve_sets_audit_fields (now : datetime) (u : User.t) (post : POST) (d : DB)
    (university_id : pk) (uni : University.t) :
  User.is_authenticated u = true →
  User.user_type u = university →
  university_profile d u = Some (university_id, uni) →
  post !! "action" = Some "approve" →
  (∀ student_id s,
     students d !! student_id = Some s →
     Student.university s = Some university_id →
     let done := StudentVerificationActionView now u post student_id (request_on d) in
     ∃ s', students (store done.2) !! student_id = Some s'
           ∧ Student.is_verified s' = true
           ∧ Student.verification_status s' = v_approved
           ∧ Student.verified_by s' = Some university_id
           ∧ Student.verified_at s' = Some now
           ∧ Student.rejection_reason s' = Student.rejection_reason s)
  ∧ (∀ company_id c,
       companies d !! company_id = Some c →
       let done := CompanyVerificationActionView now u post company_id (request_on d) in
       ∃ c', companies (store done.2) !! company_id = Some c'
             ∧ Company.is_verified c' = true
             ∧ Company.verification_status c' = v_approved
             ∧ Company.verified_by c' = Some university_id
             ∧ Company.verified_at c' = Some now
             ∧ Company.rejection_reason c' = Company.rejection_reason c).
Proof.
  intros Hauth Htype Hprofile Haction. split.
  - intros student_id s Hs Huni done.
    destruct (approve_student now u post d university_id uni student_id s)
      as [_ Hstore]; try done.
    subst done. rewrite Hstore. simpl. eexists. split; [apply lookup_insert_eq|].
    done.
  - intros company_id c Hc done.
    destruct (approve_company now u post d university_id uni company_id c)
      as [_ Hstore]; try done.
    subst done. rewrite Hstore. simpl. eexists. split; [apply lookup_insert_eq|].
    done.
Qed.

Lemma approve_sets_audit_fields_witness :
  let done :=
    StudentVerificationActionView 100 university_user (action "approve") 1
      (request_on db_with_rejections) in
  ∃ s', students (store done.2) !! 1 = Some s'
        ∧ Student.is_verified s' = true
        ∧ Student.verification_status s' = v_approved
        ∧ Student.verified_by s' = Some 1
        ∧ Student.verified_at s' = Some 100
        ∧ Student.rejection_reason s' = Student.rejection_reason rejected_student.
Proof.
  apply (proj1 (approve_sets_audit_fields 100 university_user (action "approve")
                  db_with_rejections 1 sample_university
                  eq_refl eq_refl eq_refl eq_refl) 1 rejected_student);
    vm_compute; reflexivity.
Defined.

(** C7, counterexample. Approving a student, and a company, that had been
    rejected with a reason leaves the reason in place. *)
Lemma approve_keeps_rejection_reason :
  let after_student :=
    StudentVerificationActionView 100 university_user (action "approve") 1
      (request_on db_with_rejections) in
  let after_company :=
    CompanyVerificationActionView 100 university_user (action "approve") 2
      (request_on db_with_rejections) in
  Student.verification_status <$> students (store after_student.2) !! 1
    = Some v_approved
  ∧ Student.rejection_reason <$> students (store after_student.2) !! 1
    = Some "Not enrolled"
  ∧ Company.verification_status <$> companies (store after_company.2) !! 2
    = Some v_approved
  ∧ Company.rejection_reason <$> companies (store after_company.2) !! 2
    = Some "No certificate".
Proof. vm_compute. repeat split; reflexivity. Qed.

(** ** The life of a student profile *)

Lemma StudentProfileForm_valid_email d form :
  StudentProfileForm_is_valid d form = true → form_university_email form ≠ "".
Proof.
  unfold StudentProfileForm_is_valid. intros H.
  apply andb_true_iff in H as [_ H]. apply negb_true_iff in H.
  by apply bool_decide_eq_false in H.
Qed.

Lemma perform_keeps_invariant req d :
  (∀ k s, students d !! k = Some s → student_invariant s) →
  ∀ k s, students (perform req d) !! k = Some s → student_invariant s.
Proof.
  intros Hinv k s. destruct req as [|u form|now u post student_id]; simpl.
  - unfold RegisterView_post, StudentRegistrationForm_save. run_eff.
    case_bool_decide as Hnone; simpl; [apply Hinv|].
    rewrite lookup_insert. case_decide as Hk.
    + intros [= <-]. intros [H|[x H]]; discriminate.
    + apply Hinv.
  - unfold ProfileEditView, ProfileEditView_form_valid. run_eff.
    destruct (User.is_authenticated u); simpl; [|apply Hinv].
    destruct (student_profile d u) as [[student_pk instance]|]; simpl.
    + destruct (StudentProfileForm_is_valid d form) eqn:Hvalid; simpl;
        [|apply Hinv].
      apply StudentProfileForm_valid_email in Hvalid.
      case_bool_decide; simpl;
        [destruct (Student.is_verified instance); simpl|];
        rewrite insert_insert_eq, lookup_insert; (case_decide; [|apply Hinv]);
        intros [= <-] _; exact Hvalid.
    + destruct (StudentProfileForm_is_valid d form); simpl; apply Hinv.
  - unfold StudentVerificationActionView, UniversityRequiredMixin_test_func,
      StudentVerificationActionView_post.
    run_eff.
    destruct (User.is_authenticated u); simpl; [|apply Hinv].
    case_bool_decide; simpl; [|apply Hinv].
    destruct (university_profile d u) as [[university_id uni]|] eqn:Hprofile; simpl;
      [|apply Hinv].
    repeat (rewrite Hprofile; simpl).
    destruct (students d !! student_id) as [s0|] eqn:Hs0; simpl; [|apply Hinv].
    case_bool_decide as Huni; simpl; [|apply Hinv].
    pose proof (Hinv _ _ Hs0) as Hs0inv.
    repeat (case_bool_decide; simpl); try apply Hinv;
      rewrite lookup_insert; (case_decide; [|apply Hinv]);
      intros [= <-] _; apply Hs0inv; right; rewrite Huni; eauto.
Qed.

Lemma perform_all_keeps_invariant reqs d :
  (∀ k s, students d !! k = Some s → student_invariant s) →
  ∀ k s, students (perform_all reqs d) !! k = Some s → student_invariant s.
Proof.
  revert d. induction reqs as [|req reqs IH]; intros d Hinv; simpl; [exact Hinv|].
  apply IH. by apply perform_keeps_invariant.
Qed.

Lemma approval_outcome now u post d student_id r :
  post !! "action" = Some "approve" →
  let done := StudentVerificationActionView now u post student_id (request_on d) in
  done.1 = Ok r →
  ∃ university_id uni s,
    university_profile d u = Some (university_id, uni)
    ∧ students d !! student_id = Some s
    ∧ Student.university s = Some university_id
    ∧ students (store done.2) !! student_id
      = Some (Student.set_verified_by (Some university_id) (Some now)
                (Student.set_verification true v_approved s)).
Proof.
  intros Haction.
  unfold StudentVerificationActionView, UniversityRequiredMixin_test_func,
    StudentVerificationActionView_post.
  run_eff.
  destruct (User.is_authenticated u); simpl; [|done].
  case_bool_decide; simpl; [|done].
  destruct (university_profile d u) as [[university_id uni]|] eqn:Hprofile; simpl;
    [|done].
  repeat (rewrite Hprofile; simpl).
  destruct (students d !! student_id) as [s0|] eqn:Hs0; simpl; [|done].
  case_bool_decide as Huni; simpl; [|done].
  rewrite Haction; simpl. intros _.
  exists university_id, uni, s0. repeat split; try done. apply lookup_insert_eq.
Qed.

(** C2, as the code has it. Starting from student rows that satisfy
    [student_invariant] (a fresh registration does), after any sequence of
    registrations, profile edits and verification actions every approved
    student has a non-empty university e-mail; and an approve action that
    goes through leaves the student approved, bound to the acting university
    (so [university] is not null at that moment) and with a non-empty
    university e-mail. Nothing is promised about [student_id], nor about
    [university] after a later profile edit. *)
Theorem approved_student_invariant (reqs : list StudentRequest) (d0 : DB) :
  (∀ k s, students d0 !! k = Some s → student_invariant s) →
  let d := perform_all reqs d0 in
  (∀ k s, students d !! k = Some s →
          Student.verification_status s = v_approved →
          Student.university_email s ≠ "")
  ∧ (∀ now u post student_id r,
       post !! "action" = Some "approve" →
       let done := StudentVerificationActionView now u post student_id (request_on d) in
       done.1 = Ok r →
       ∃ s' university_id uni,
         students (store done.2) !! student_id = Some s'
         ∧ Student.verification_status s' = v_approved
         ∧ university_profile d u = Some (university_id, uni)
         ∧ Student.university s' = Some university_id
         ∧ Student.university_email s' ≠ "").
Proof.
  intros Hinv d.
  pose proof (perform_all_keeps_invariant reqs d0 Hinv) as Hd. fold d in Hd.
  split.
  - intros k s Hs Happroved. apply (Hd k s Hs). by left.
  - intros now u post student_id r Haction done Hok.
    destruct (approval_outcome now u post d student_id r Haction Hok)
      as (university_id & uni & s & Hprofile & Hs & Huni & Hs').
    eexists _, university_id, uni. split; [exact Hs'|]. simpl.
    repeat split; try done.
    apply (Hd _ _ Hs). right. rewrite Huni. eauto.
Qed.

Lemma approved_student_invariant_witness :
  let d :=
    perform_all [register; profile_edit newcomer form_without_student_id;
                 verification 100 university_user (action "approve") 1]
      campus_db in
  (∀ k s, students d !! k = Some s →
          Student.verification_status s = v_approved →
          Student.university_email s ≠ "")
  ∧ (∀ now u post student_id r,
       post !! "action" = Some "approve" →
       let done := StudentVerificationActionView now u post student_id (request_on d) in
       done.1 = Ok r →
       ∃ s' university_id uni,
         students (store done.2) !! student_id = Some s'
         ∧ Student.verification_status s' = v_approved
         ∧ university_profile d u = Some (university_id, uni)
         ∧ Student.university s' = Some university_id
         ∧ Student.university_email s' ≠ "").
Proof.
  apply (approved_student_invariant
           [register; profile_edit newcomer form_without_student_id;
            verification 100 university_user (action "approve") 1] campus_db).
  intros k s Hs. vm_compute in Hs. discriminate Hs.
Defined.

(** C2, counterexample. A student registers, fills in the profile with the
    university chosen and the student id left blank, and is approved by that
    university: an approved student with an empty [student_id]. A further
    profile edit that leaves the university blank keeps the student approved
    with no university at all. *)
Lemma approved_without_student_id :
  let requests :=
    [register; profile_edit newcomer form_without_student_id;
     verification 100 university_user (action "approve") 1] in
  let d := perform_all requests campus_db in
  let d' := perform (profile_edit newcomer form_without_university) d in
  StudentProfileForm_is_valid campus_db form_without_student_id = true
  ∧ Student.verification_status <$> students d !! 1 = Some v_approved
  ∧ Student.student_id <$> students d !! 1 = Some ""
  ∧ StudentProfileForm_is_valid d form_without_university = true
  ∧ Student.verification_status <$> students d' !! 1 = Some v_approved
  ∧ Student.university <$> students d' !! 1 = Some None.
Proof. vm_compute. repeat split; reflexivity. Qed.

(** The gate of the dashboard: a student whose profile lacks the university,
    the student id or the university e-mail is sent to the profile form,
    whatever the verification status. *)
Lemma dashboard_blocks_incomplete_profile u d student_pk s :
  User.is_authenticated u = true →
  User.user_type u = student →
  student_profile d u = Some (student_pk, s) →
  Student.university s = None ∨ Student.student_id s = ""
    ∨ Student.university_email s = "" →
  (DashboardView_dispatch u (request_on d)).1 = Ok (Redirect "accounts:profile_edit").
Proof.
  intros Hauth Htype Hprofile Hmissing.
  unfold DashboardView_dispatch. run_eff.
  rewrite Hauth; simpl. rewrite Htype; simpl. rewrite Hprofile; simpl.
  destruct Hmissing as [H|[H|H]]; rewrite H; simpl.
  - done.
  - rewrite orb_true_r. done.
  - rewrite orb_true_r. done.
Qed.

(** ** Reviewing a deliverable *)


Section ReviewDeliverable.
Variables (now : datetime) (post : POST) (d : DB) (pk_ deliverable_id milestone_id : pk).
Variables (project : Project.t) (deliverable : Deliverable.t) (milestone : Milestone.t).
Hypothesis Hproject : projects d !! pk_ = Some project.
Hypothesis Hdeliverable : deliverables d !! deliverable_id = Some deliverable.
Hypothesis Hof_project : Deliverable.project deliverable = pk_.
Hypothesis Hlinked : Deliverable.milestone deliverable = Some milestone_id.
Hypothesis Hmilestone : milestones d !! milestone_id = Some milestone.


End ReviewDeliverable.



(** Approving the last open deliverable of the sample workspace approves its
    milestone; asking for a revision of it marks the milestone, although the
    other deliverable is approved. *)
Example review_in_sample_workspace :
  let approved :=
    ReviewDeliverableView_post 100 (action "approve") 1 2 (request_on workspace_db) in
  let revised :=
    ReviewDeliverableView_post 100 (action "revision") 1 2 (request_on workspace_db) in
  Milestone.status <$> milestones (store approved.2) !! 1 = Some m_approved
  ∧ Milestone.completed_at <$> milestones (store approved.2) !! 1 = Some (Some 100)
  ∧ Milestone.status <$> milestones (store revised.2) !! 1 = Some revision_required.
Proof. vm_compute. repeat split; reflexivity. Qed.

(** ** Progress *)








(** * Further properties *)

(** ** Who may act on an application *)

(** X1. The company action view answers a request, or changes the
    database, only for the user of the company that owns the application's
    project. *)
Theorem company_action_needs_owner (now : datetime) (u : User.t) (post : POST)
    (pk_ application_id : pk) (d : DB) :
  let done := ApplicationActionView now u post pk_ application_id (request_on d) in
  (∃ r, done.1 = Ok r) ∨ store done.2 ≠ d →
  owning_company_of_application d u application_id.
Proof.
  unfold ApplicationActionView, ApplicationActionView_test_func,
    owning_company_of_application.
  run_eff.
  destruct (User.is_authenticated u); simpl; [|intros [[r H]|H]; done].
  destruct (applications d !! application_id) as [application|] eqn:Ha; simpl;
    [|intros [[r H]|H]; done].
  case_bool_decide as Htype; simpl; [|intros [[r H]|H]; done].
  destruct (company_profile d u) as [profile|] eqn:Hprofile; simpl;
    [|intros [[r H]|H]; done].
  destruct (projects d !! ProjectApplication.project application)
    as [project|] eqn:Hp; simpl; [|intros [[r H]|H]; done].
  destruct (Project.company project) as [cid|] eqn:Hcid; simpl;
    [|intros [[r H]|H]; done].
  destruct (companies d !! cid) as [c|] eqn:Hc; simpl; [|intros [[r H]|H]; done].
  case_bool_decide as Howner; simpl; [|intros [[r H]|H]; done].
  intros _. repeat split; eauto 10.
Qed.

Lemma company_action_needs_owner_witness :
  owning_company_of_application sample_db company_user 1.
Proof.
  apply (company_action_needs_owner 100 company_user (action "accept") 1 1 sample_db).
  left. eexists. vm_compute. reflexivity.
Defined.

(** X2. A company user who posts an action on an application to a project
    that has no company - one a university posted itself - is answered with
    an [AttributeError] (a server error, not a refusal); nothing is
    written. *)
Theorem company_action_on_university_project (now : datetime) (u : User.t) (post : POST)
    (pk_ application_id : pk) (d : DB) (application : ProjectApplication.t)
    (project : Project.t) :
  User.is_authenticated u = true →
  User.user_type u = company →
  is_Some (company_profile d u) →
  applications d !! application_id = Some application →
  projects d !! ProjectApplication.project application = Some project →
  Project.company project = None →
  ApplicationActionView now u post pk_ application_id (request_on d)
  = (Raise AttributeError, request_on d).
Proof.
  intros Hauth Htype [profile Hprofile] Ha Hp Hnone.
  unfold ApplicationActionView, ApplicationActionView_test_func. run_eff.
  rewrite Hauth; simpl. rewrite Ha; simpl. rewrite Htype; simpl.
  rewrite Hprofile; simpl. rewrite Hp; simpl. rewrite Hnone; simpl. done.
Qed.

Lemma company_action_on_university_project_witness :
  ApplicationActionView 100 company_user (action "accept") 2 2 (request_on sample_db)
  = (Raise AttributeError, request_on sample_db).
Proof.
  apply (company_action_on_university_project 100 company_user (action "accept")
           2 2 sample_db (sample_application 2 a_pending) (university_project open));
    try (vm_compute; reflexivity).
  vm_compute. eauto.
Defined.

(** X3. The university action view answers a request, or changes the
    database, only for the user of the university that posted the
    application's project itself; a university never acts there on the
    applications to a company's project, though the project is bound to
    it. *)
Theorem university_action_needs_poster (now : datetime) (u : User.t) (post : POST)
    (application_id : pk) (d : DB) :
  let done :=
    UniversityApplicationActionView now u post application_id (request_on d) in
  (∃ r, done.1 = Ok r) ∨ store done.2 ≠ d →
  posting_university_of_application d u application_id.
Proof.
  unfold UniversityApplicationActionView, UniversityApplicationActionView_test_func,
    posting_university_of_application.
  run_eff.
  destruct (User.is_authenticated u); simpl; [|intros [[r H]|H]; done].
  destruct (applications d !! application_id) as [application|] eqn:Ha; simpl;
    [|intros [[r H]|H]; done].
  case_bool_decide as Htype; simpl; [|intros [[r H]|H]; done].
  destruct (university_profile d u) as [profile|] eqn:Hprofile; simpl;
    [|intros [[r H]|H]; done].
  destruct (projects d !! ProjectApplication.project application)
    as [project|] eqn:Hp; simpl; [|intros [[r H]|H]; done].
  destruct (Project.posted_by_university project) eqn:Hposted; simpl;
    [|intros [[r H]|H]; done].
  destruct (universities d !! Project.university project) as [uni|] eqn:Huni;
    simpl; [|intros [[r H]|H]; done].
  case_bool_decide as Howner; simpl; [|intros [[r H]|H]; done].
  intros _. repeat split; eauto 10.
Qed.

Lemma university_action_needs_poster_witness :
  posting_university_of_application sample_db university_user 2.
Proof.
  apply (university_action_needs_poster 100 university_user (action "shortlist") 2
           sample_db).
  left. eexists. vm_compute. reflexivity.
Defined.

(** ** Verification by a university, continued *)

(** X4. The reject action, on a student of the acting university and on any
    company, clears [is_verified], sets [verification_status] to rejected
    and records the given reason, "No reason provided" when the request has
    none; [verified_by] and [verified_at] keep what an earlier approval
    wrote. *)
Theorem reject_keeps_audit_fields (now : datetime) (u : User.t) (post : POST) (d : DB)
    (university_id : pk) (uni : University.t) :
  User.is_authenticated u = true →
  User.user_type u = university →
  university_profile d u = Some (university_id, uni) →
  post !! "action" = Some "reject" →
  (∀ student_id s,
     students d !! student_id = Some s →
     Student.university s = Some university_id →
     let done := StudentVerificationActionView now u post student_id (request_on d) in
     ∃ s', students (store done.2) !! student_id = Some s'
           ∧ Student.is_verified s' = false
           ∧ Student.verification_status s' = v_rejected
           ∧ Student.rejection_reason s'
             = default "No reason provided" (post !! "rejection_reason")
           ∧ Student.verified_by s' = Student.verified_by s
           ∧ Student.verified_at s' = Student.verified_at s)
  ∧ (∀ company_id c,
       companies d !! company_id = Some c →
       let done := CompanyVerificationActionView now u post company_id (request_on d) in
       ∃ c', companies (store done.2) !! company_id = Some c'
             ∧ Company.is_verified c' = false
             ∧ Company.verification_status c' = v_rejected
             ∧ Company.rejection_reason c'
               = default "No reason provided" (post !! "rejection_reason")
             ∧ Company.verified_by c' = Company.verified_by c
             ∧ Company.verified_at c' = Company.verified_at c).
Proof.
  intros Hauth Htype Hprofile Haction. split.
  - intros student_id s Hs Huni.
    unfold StudentVerificationActionView, UniversityRequiredMixin_test_func,
      StudentVerificationActionView_post.
    run_eff.
    rewrite Hauth; simpl. rewrite Htype; simpl.
    repeat (rewrite Hprofile; simpl). rewrite Hs; simpl.
    rewrite (bool_decide_eq_true_2 _ Huni); simpl.
    rewrite Haction; simpl.
    eexists. split; [apply lookup_insert_eq|]. done.
  - intros company_id c Hc.
    unfold CompanyVerificationActionView, UniversityRequiredMixin_test_func,
      CompanyVerificationActionView_post.
    run_eff.
    rewrite Hauth; simpl. rewrite Htype; simpl.
    repeat (rewrite Hprofile; simpl). rewrite Hc; simpl.
    rewrite Haction; simpl.
    eexists. split; [apply lookup_insert_eq|]. done.
Qed.

Lemma reject_keeps_audit_fields_witness :
  let done :=
    CompanyVerificationActionView 100 university_user (action "reject") 1
      (request_on sample_db) in
  ∃ c', companies (store done.2) !! 1 = Some c'
        ∧ Company.is_verified c' = false
        ∧ Company.verification_status c' = v_rejected
        ∧ Company.rejection_reason c'
          = default "No reason provided" (action "reject" !! "rejection_reason")
        ∧ Company.verified_by c' = Company.verified_by sample_company
        ∧ Company.verified_at c' = Company.verified_at sample_company.
Proof.
  apply (proj2 (reject_keeps_audit_fields 100 university_user (action "reject")
                  sample_db 1 sample_university eq_refl eq_refl eq_refl eq_refl)
           1 sample_company).
  vm_compute. reflexivity.
Defined.



(** ** Verification and posting compose *)





(** ** One application per student and project *)

Lemma company_action_runs_post now u post pk_ application_id d :
  ApplicationActionView now u post pk_ application_id (request_on d)
  = ApplicationActionView_post now post pk_ application_id (request_on d)
  ∨ store (ApplicationActionView now u post pk_ application_id (request_on d)).2 = d.
Proof.
  unfold ApplicationActionView, ApplicationActionView_test_func.
  unfold dispatch, get_object_or_404, related, query, bind, ret, raise, request_on.
  simpl.
  destruct (User.is_authenticated u); simpl; [|by right].
  destruct (applications d !! application_id) as [application|]; simpl; [|by right].
  case_bool_decide; simpl; [|by right].
  destruct (company_profile d u); simpl; [|by right].
  destruct (projects d !! ProjectApplication.project application) as [project|];
    simpl; [|by right].
  destruct (Project.company project) as [cid|]; simpl; [|by right].
  destruct (companies d !! cid) as [c|]; simpl; [|by right].
  case_bool_decide; simpl; [by left|by right].
Qed.

Lemma university_action_runs_post now u post application_id d :
  UniversityApplicationActionView now u post application_id (request_on d)
  = UniversityApplicationActionView_post now post application_id (request_on d)
  ∨ store (UniversityApplicationActionView now u post application_id
             (request_on d)).2 = d.
Proof.
  unfold UniversityApplicationActionView, UniversityApplicationActionView_test_func.
  unfold dispatch, get_object_or_404, related, query, bind, ret, raise, request_on.
  simpl.
  destruct (User.is_authenticated u); simpl; [|by right].
  destruct (applications d !! application_id) as [application|]; simpl; [|by right].
  case_bool_decide; simpl; [|by right].
  destruct (university_profile d u); simpl; [|by right].
  destruct (projects d !! ProjectApplication.project application) as [project|];
    simpl; [|by right].
  destruct (Project.posted_by_university project); simpl; [|by right].
  destruct (universities d !! Project.university project) as [uni|]; simpl;
    [|by right].
  case_bool_decide; simpl; [by left|by right].
Qed.

Lemma company_post_rewrites_one now post pk_ application_id d :
  rewrites_one_application d
    (store (ApplicationActionView_post now post pk_ application_id (request_on d)).2)
    application_id.
Proof.
  unfold rewrites_one_application, ApplicationActionView_post. run_eff.
  destruct (applications d !! application_id) as [a|] eqn:Ha; simpl; [|by left].
  destruct (projects d !! ProjectApplication.project a) as [p|]; simpl; [|by left].
  repeat (case_bool_decide; simpl); try (by left);
    right; exists a; eexists; (split; [done|]);
    (split; [|split; [|reflexivity]]); reflexivity.
Qed.

Lemma university_post_rewrites_one now post application_id d :
  rewrites_one_application d
    (store (UniversityApplicationActionView_post now post application_id
              (request_on d)).2)
    application_id.
Proof.
  unfold rewrites_one_application, UniversityApplicationActionView_post. run_eff.
  destruct (applications d !! application_id) as [a|] eqn:Ha; simpl; [|by left].
  destruct (projects d !! ProjectApplication.project a) as [p|]; simpl; [|by left].
  repeat (case_bool_decide; simpl); try (by left);
    right; exists a; eexists; (split; [done|]);
    (split; [|split; [|reflexivity]]); reflexivity.
Qed.

Lemma rewrite_keeps_unique d d' application_id :
  rewrites_one_application d d' application_id →
  unique_applications d → unique_applications d'.
Proof.
  intros [Hsame|(a & a' & Ha & Hproject & Hstudent & Hnew)] Hunique;
    unfold unique_applications in *.
  - rewrite Hsame. exact Hunique.
  - rewrite Hnew. intros k1 k2 a1 a2 H1 H2 Hp Hs.
    destruct (decide (k1 = application_id)) as [->|Hk1];
      destruct (decide (k2 = application_id)) as [->|Hk2]; [done|..].
    + rewrite lookup_insert_eq in H1. rewrite lookup_insert_ne in H2 by done.
      injection H1 as <-. apply (Hunique _ _ _ _ Ha H2); congruence.
    + rewrite lookup_insert_eq in H2. rewrite lookup_insert_ne in H1 by done.
      injection H2 as <-. apply (Hunique _ _ _ _ H1 Ha); congruence.
    + rewrite lookup_insert_ne in H1, H2 by done.
      by apply (Hunique _ _ _ _ H1 H2).
Qed.

Lemma perform_application_keeps_unique req d :
  unique_applications d → unique_applications (perform_application req d).
Proof.
  intros Hunique. destruct req as [u pk_ form|now u post pk_ aid|now u post aid]; simpl.
  - destruct (apply_outcome u pk_ form d) as [[student_pk Hmay]|[Hsame _]].
    + destruct (apply_files_application u pk_ form d student_pk Hmay)
        as (_ & _ & Hfresh & Hstore).
      rewrite Hstore. destruct Hmay as (_ & _ & _ & _ & Hnew & _).
      unfold unique_applications in *. simpl.
      intros k1 k2 a1 a2 H1 H2 Hp Hs.
      destruct (decide (k1 = next_pk (applications d))) as [->|Hk1];
        destruct (decide (k2 = next_pk (applications d))) as [->|Hk2]; [done|..].
      * rewrite lookup_insert_eq in H1. rewrite lookup_insert_ne in H2 by done.
        injection H1 as <-. exfalso. apply Hnew. exists k2, a2. simpl in *. done.
      * rewrite lookup_insert_eq in H2. rewrite lookup_insert_ne in H1 by done.
        injection H2 as <-. exfalso. apply Hnew. exists k1, a1. simpl in *. done.
      * rewrite lookup_insert_ne in H1, H2 by done.
        by apply (Hunique _ _ _ _ H1 H2).
    + by rewrite Hsame.
  - destruct (company_action_runs_post now u post pk_ aid d) as [ -> | -> ]; [|done].
    eapply rewrite_keeps_unique; [apply company_post_rewrites_one|done].
  - destruct (university_action_runs_post now u post aid d) as [ -> | -> ]; [|done].
    eapply rewrite_keeps_unique; [apply university_post_rewrites_one|done].
Qed.

(** X7. At most one application per student and project: whatever
    applications, acceptances, rejections and shortlistings are requested,
    by whomever, a database in which no two applications share project and
    student stays that way. *)
Theorem applications_stay_unique (reqs : list ApplicationRequest) (d : DB) :
  unique_applications d → unique_applications (perform_applications reqs d).
Proof.
  revert d. induction reqs as [|req reqs IH]; intros d Hunique; simpl; [done|].
  apply IH. by apply perform_application_keeps_unique.
Qed.

Lemma applications_stay_unique_witness :
  unique_applications
    (perform_applications
       [apply_to student_user 3 sample_application_form;
        apply_to student_user 3 sample_application_form;
        company_action 100 company_user (action "accept") 3 1]
       (set_applications (λ _, ∅) sample_db)).
Proof.
  apply applications_stay_unique.
  intros k1 k2 a1 a2 H1. vm_compute in H1. discriminate H1.
Defined.

(** ** The statuses a project goes through *)

Lemma status_step_refl d : status_step d d.
Proof. intros k p' Hk. right. eauto. Qed.

Lemma status_step_same d d' : projects d' = projects d → status_step d d'.
Proof. intros Hsame k p' Hk. rewrite Hsame in Hk. right. eauto. Qed.

Lemma status_step_insert d d' k p' :
  projects d' = <[k := p']> (projects d) →
  (written_status (Project.status p')
   ∨ ∃ p, projects d !! k = Some p ∧ Project.status p = Project.status p') →
  status_step d d'.
Proof.
  intros Hnew Hstatus k0 p0 Hk0. rewrite Hnew, lookup_insert in Hk0.
  case_decide as Hcase.
  - injection Hk0 as <-. subst k0. exact Hstatus.
  - right. eauto.
Qed.

Lemma create_project_status_step now u form d :
  status_step d (store (ProjectCreateView now u form (request_on d)).2).
Proof.
  unfold ProjectCreateView, ProjectCreateView_test_func, ProjectCreateView_form_valid.
  run_eff.
  destruct (User.is_authenticated u); simpl; [|apply status_step_refl].
  destruct (User.user_type u) eqn:Htype; simpl; [apply status_step_refl|..].
  - destruct (company_profile d u) as [[cid c]|] eqn:Hprofile; simpl;
      [|apply status_step_refl].
    destruct (Company.is_verified c); simpl; [|apply status_step_refl].
    destruct (ProjectForm_is_valid d u form); simpl; [|apply status_step_refl].
    rewrite ?Htype; simpl. repeat (rewrite Hprofile; simpl).
    destruct (form_university form); simpl; [|by apply status_step_same].
    eapply status_step_insert; [reflexivity|]. left. unfold written_status. auto.
  - destruct (university_profile d u) as [[uid uni]|] eqn:Hprofile; simpl;
      [|apply status_step_refl].
    destruct (ProjectForm_is_valid d u form); simpl; [|apply status_step_refl].
    rewrite ?Htype; simpl. repeat (rewrite Hprofile; simpl).
    eapply status_step_insert; [reflexivity|]. left. unfold written_status. auto.
Qed.

Lemma update_project_status_step u pk_ form d :
  status_step d (store (ProjectUpdateView u pk_ form (request_on d)).2).
Proof.
  unfold ProjectUpdateView, ProjectUpdateView_test_func. run_eff.
  destruct (User.is_authenticated u); simpl; [|apply status_step_refl].
  destruct (projects d !! pk_) as [p|] eqn:Hp; simpl; [|apply status_step_refl].
  case_bool_decide; simpl; [|apply status_step_refl].
  destruct (company_profile d u); simpl; [|apply status_step_refl].
  destruct (Project.company p) as [cid|]; simpl; [|apply status_step_refl].
  destruct (companies d !! cid) as [c|]; simpl; [|apply status_step_refl].
  destruct (bool_decide (Company.user c = User.id u) && _); simpl;
    [|apply status_step_refl].
  rewrite ?Hp; simpl.
  destruct (form_university form) as [uni|]; simpl; [|apply status_step_refl].
  destruct (match universities d !! uni with Some _ => _ | None => _ end && _);
    simpl; [|apply status_step_refl].
  eapply status_step_insert; [reflexivity|]. right. eauto.
Qed.

Lemma review_project_status_step now u post pk_ d :
  status_step d (store (ProjectReviewView now u post pk_ (request_on d)).2).
Proof.
  unfold ProjectReviewView, ProjectReviewView_test_func, ProjectReviewView_post.
  run_eff.
  destruct (User.is_authenticated u); simpl; [|apply status_step_refl].
  case_bool_decide; simpl; [|apply status_step_refl].
  destruct (university_profile d u) as [[uid uni]|] eqn:Hprofile; simpl;
    [|apply status_step_refl].
  repeat (rewrite Hprofile; simpl).
  destruct (projects d !! pk_) as [p|] eqn:Hp; simpl; [|apply status_step_refl].
  case_bool_decide; simpl; [|apply status_step_refl].
  repeat (case_bool_decide; simpl);
    (eapply status_step_insert; [reflexivity|]); unfold written_status; eauto 10.
Qed.

Lemma action_post_status_step (run : Eff Response) d :
  (∃ now post pk_ application_id,
     run = ApplicationActionView_post now post pk_ application_id)
  ∨ (∃ now post application_id,
       run = UniversityApplicationActionView_post now post application_id) →
  status_step d (store (run (request_on d)).2).
Proof.
  intros [(now & post & pk_ & aid & ->)|(now & post & aid & ->)];
    unfold ApplicationActionView_post, UniversityApplicationActionView_post;
    run_eff;
    (destruct (applications d !! aid) as [a|]; simpl; [|apply status_step_refl]);
    (destruct (projects d !! ProjectApplication.project a) as [p|] eqn:Hp; simpl;
       [|apply status_step_refl]);
    repeat (case_bool_decide; simpl);
    try (by apply status_step_same);
    (eapply status_step_insert; [reflexivity|]); left; unfold written_status; auto.
Qed.

Lemma perform_project_status_step req d : status_step d (perform_project req d).
Proof.
  destruct req as [now u form|u pk_ form|now u post pk_|req]; simpl.
  - apply create_project_status_step.
  - apply update_project_status_step.
  - apply review_project_status_step.
  - destruct req as [u pk_ form|now u post pk_ aid|now u post aid]; simpl.
    + destruct (apply_outcome u pk_ form d) as [[student_pk Hmay]|[Hsame _]].
      * destruct (apply_files_application u pk_ form d student_pk Hmay)
          as (_ & _ & _ & Hstore).
        rewrite Hstore. by apply status_step_same.
      * rewrite Hsame. apply status_step_refl.
    + destruct (company_action_runs_post now u post pk_ aid d) as [ -> | -> ];
        [|apply status_step_refl].
      apply action_post_status_step. left. eauto.
    + destruct (university_action_runs_post now u post aid d) as [ -> | -> ];
        [|apply status_step_refl].
      apply action_post_status_step. right. eauto.
Qed.

(** X8. No request completes or cancels a project, or makes it a draft:
    through any sequence of project creations, edits, reviews, applications
    and actions on applications, a project that ends [completed],
    [cancelled] or [draft] was there from the start with that status. *)
Theorem no_view_completes_a_project (reqs : list ProjectRequest) (d : DB) (k : pk)
    (p' : Project.t) :
  projects (perform_projects reqs d) !! k = Some p' →
  ¬ written_status (Project.status p') →
  ∃ p, projects d !! k = Some p ∧ Project.status p = Project.status p'.
Proof.
  revert d. induction reqs as [|req reqs IH]; intros d Hk Hnot; simpl in *.
  - eauto.
  - destruct (IH _ Hk Hnot) as (p1 & Hp1 & Hstatus1).
    destruct (perform_project_status_step req d k p1 Hp1) as [Hw|(p & Hp & Hstatus)].
    + rewrite Hstatus1 in Hw. done.
    + exists p. split; [done|]. congruence.
Qed.

Lemma no_view_completes_a_project_witness :
  ∃ p, projects (sample_db_with completed a_pending) !! 1 = Some p
       ∧ Project.status p = Project.status (company_project completed).
Proof.
  apply (no_view_completes_a_project
           [create_project 100 company_user sample_project_form;
            act_on_application
              (company_action 101 company_user (action "accept") 1 1)]
           (sample_db_with completed a_pending) 1 (company_project completed)).
  - vm_compute. reflexivity.
  - intros [H|[H|[H|H]]]; discriminate H.
Defined.

(** ** Editing a project *)

(** X9. A company's edit of its own project goes through only while the
    project is a draft or rejected, and it never touches the workflow
    fields: status, company, review time stamps and rejection reason stay
    as they were, so an edited rejected project is still rejected. In any
    other status the edit is refused with 403 and nothing is written. *)
Theorem edit_keeps_status (u : User.t) (pk_ : pk) (form : ProjectForm) (d : DB)
    (p : Project.t) (cid : pk) (c : Company.t) :
  User.is_authenticated u = true →
  User.user_type u = company →
  is_Some (company_profile d u) →
  projects d !! pk_ = Some p →
  Project.company p = Some cid →
  companies d !! cid = Some c →
  Company.user c = User.id u →
  let done := ProjectUpdateView u pk_ form (request_on d) in
  (Project.status p ≠ draft → Project.status p ≠ p_rejected →
   done.1 = Raise PermissionDenied ∧ store done.2 = d)
  ∧ (Project.status p = draft ∨ Project.status p = p_rejected →
     (∃ r, done.1 = Ok r)
     ∧ ∃ p', projects (store done.2) !! pk_ = Some p'
             ∧ Project.status p' = Project.status p
             ∧ Project.company p' = Project.company p
             ∧ Project.posted_by_university p' = Project.posted_by_university p
             ∧ Project.rejection_reason p' = Project.rejection_reason p
             ∧ Project.submitted_for_review_at p' = Project.submitted_for_review_at p
             ∧ Project.approved_at p' = Project.approved_at p).
Proof.
  intros Hauth Htype [profile Hprofile] Hp Hcid Hc Huser.
  unfold ProjectUpdateView, ProjectUpdateView_test_func. run_eff.
  rewrite Hauth; simpl. rewrite Hp; simpl. rewrite Htype; simpl.
  rewrite Hprofile; simpl. rewrite Hcid; simpl. rewrite Hc; simpl.
  rewrite (bool_decide_eq_true_2 _ Huser); simpl.
  split.
  - intros Hdraft Hrejected.
    rewrite (bool_decide_eq_false_2 _ Hdraft), (bool_decide_eq_false_2 _ Hrejected).
    simpl. done.
  - intros Hstatus.
    assert (bool_decide (Project.status p = draft)
            || bool_decide (Project.status p = p_rejected) = true) as ->.
    { apply orb_true_iff. destruct Hstatus as [H|H]; [left|right];
        by apply bool_decide_eq_true. }
    simpl. rewrite ?Hp; simpl.
    destruct (form_university form) as [uni|]; simpl; [|eauto 10].
    destruct (match universities d !! uni with Some _ => _ | None => _ end && _);
      simpl; [|eauto 10].
    split; [eauto|]. eexists. split; [apply lookup_insert_eq|]. done.
Qed.

Lemma edit_keeps_status_witness :
  let d := sample_db_with p_rejected a_pending in
  let done := ProjectUpdateView company_user 1 sample_project_form (request_on d) in
  (∃ r, done.1 = Ok r)
  ∧ ∃ p', projects (store done.2) !! 1 = Some p'
          ∧ Project.status p' = Project.status (company_project p_rejected)
          ∧ Project.company p' = Project.company (company_project p_rejected)
          ∧ Project.posted_by_university p'
            = Project.posted_by_university (company_project p_rejected)
          ∧ Project.rejection_reason p'
            = Project.rejection_reason (company_project p_rejected)
          ∧ Project.submitted_for_review_at p'
            = Project.submitted_for_review_at (company_project p_rejected)
          ∧ Project.approved_at p' = Project.approved_at (company_project p_rejected).
Proof.
  apply (proj2 (edit_keeps_status company_user 1 sample_project_form
                  (sample_db_with p_rejected a_pending) (company_project p_rejected)
                  1 sample_company eq_refl eq_refl
                  (ex_intro _ (1, sample_company) eq_refl)
                  eq_refl eq_refl eq_refl eq_refl)).
  right. reflexivity.
Defined.

(** ** Who sees which project *)

Lemma detail_object_lookup u pk_ d :
  (ProjectDetailView_get_object u pk_ (request_on d)).1
  = match ProjectDetailView_get_queryset d u !! pk_ with
    | Some p => Ok p
    | None => Raise Http404
    end.
Proof.
  unfold ProjectDetailView_get_object. run_eff.
  destruct (ProjectDetailView_get_queryset d u !! pk_); reflexivity.
Qed.

(** X10. A company user with a profile is shown the detail of its own
    projects and of no other: the detail of an open project of somebody
    else is a 404 for it, although the project is in the list the same user
    gets and an anonymous visitor can open it. *)
Theorem company_sees_only_own_projects (u : User.t) (pk_ : pk) (d : DB)
    (cid : pk) (c : Company.t) (p : Project.t) :
  User.is_authenticated u = true →
  User.user_type u = company →
  company_profile d u = Some (cid, c) →
  projects d !! pk_ = Some p →
  (Project.company p = Some cid →
   (ProjectDetailView_get_object u pk_ (request_on d)).1 = Ok p)
  ∧ (Project.company p ≠ Some cid →
     (ProjectDetailView_get_object u pk_ (request_on d)).1 = Raise Http404
     ∧ (Project.status p = open →
        ProjectListView_get_queryset d u (λ _, true) !! pk_ = Some p
        ∧ (ProjectDetailView_get_object anonymous pk_ (request_on d)).1 = Ok p)).
Proof.
  intros Hauth Htype Hprofile Hp.
  rewrite !detail_object_lookup.
  unfold ProjectDetailView_get_queryset, ProjectListView_get_queryset.
  rewrite Hauth, Htype, Hprofile. simpl.
  destruct (student_profile d u) as [[? ?]|]; simpl.
  all: split; [intros Hown|intros Hother; split; [|intros Hopen; split]].
  all: try (rewrite (map_lookup_filter_Some_2 _ _ pk_ p); done).
  all: try (rewrite map_lookup_filter_None_2; [done|]; right; intros ? ?; simpl;
            congruence).
  all: rewrite (map_lookup_filter_Some_2 _ _ pk_ p); try done.
  all: by apply map_lookup_filter_Some_2.
Qed.

Lemma company_sees_only_own_projects_witness :
  (ProjectDetailView_get_object unverified_company_user 1 (request_on sample_db)).1
  = Raise Http404
  ∧ (Project.status (company_project open) = open →
     ProjectListView_get_queryset sample_db unverified_company_user (λ _, true) !! 1
     = Some (company_project open)
     ∧ (ProjectDetailView_get_object anonymous 1 (request_on sample_db)).1
       = Ok (company_project open)).
Proof.
  apply (proj2 (company_sees_only_own_projects unverified_company_user 1 sample_db
                  2 unverified_company (company_project open)
                  eq_refl eq_refl eq_refl eq_refl)).
  discriminate.
Defined.

(** X11. Whatever the query string, every project in the list is an open
    one that passes the filters; a student is listed projects of the
    student's own university only, and a student who has not chosen a
    university is listed nothing. *)
Theorem listed_projects_are_open (d : DB) (u : User.t) (narrow : Project.t → bool)
    (k : pk) (p : Project.t) :
  ProjectListView_get_queryset d u narrow !! k = Some p →
  projects d !! k = Some p
  ∧ Project.status p = open
  ∧ narrow p = true
  ∧ ∀ student_pk s,
      User.is_authenticated u = true →
      User.user_type u = student →
      student_profile d u = Some (student_pk, s) →
      Student.university s = Some (Project.university p).
Proof.
  unfold ProjectListView_get_queryset. intros Hlisted.
  apply map_lookup_filter_Some in Hlisted as [Hlisted Hnarrow]. simpl in Hnarrow.
  destruct (User.is_authenticated u) eqn:Hauth; simpl in Hlisted.
  - case_bool_decide as Htype; simpl in Hlisted.
    + destruct (student_profile d u) as [[student_pk s]|] eqn:Hprofile.
      * destruct (Student.university s) as [uni|] eqn:Huni;
          [|by rewrite lookup_empty in Hlisted].
        apply map_lookup_filter_Some in Hlisted as [Hlisted Hown].
        apply map_lookup_filter_Some in Hlisted as [Hlisted Hopen].
        simpl in *. repeat split; try done.
        intros student_pk' s' _ _ [= <- <-]. congruence.
      * apply map_lookup_filter_Some in Hlisted as [Hlisted Hopen].
        simpl in *. repeat split; try done.
    + apply map_lookup_filter_Some in Hlisted as [Hlisted Hopen].
      simpl in *. repeat split; try done.
  - apply map_lookup_filter_Some in Hlisted as [Hlisted Hopen].
    simpl in *. repeat split; try done.
Qed.

Lemma listed_projects_are_open_witness :
  projects sample_db !! 2 = Some (university_project open)
  ∧ Project.status (university_project open) = open
  ∧ (λ _ : Project.t, true) (university_project open) = true
  ∧ ∀ student_pk s,
      User.is_authenticated student_user = true →
      User.user_type student_user = student →
      student_profile sample_db student_user = Some (student_pk, s) →
      Student.university s = Some (Project.university (university_project open)).
Proof.
  apply (listed_projects_are_open sample_db student_user (λ _, true) 2
           (university_project open)).
  vm_compute. reflexivity.
Defined.

(** ** From the pending list to the public list *)




(** ** What an acceptance opens up *)




(** ** Milestones *)

Lemma foldr_max_ge (x : Z) (l : list Z) : x ≤ foldr Z.max x l.
Proof. induction l as [|y l IH]; simpl; lia. Qed.

Lemma foldr_max_ge_elem (x y : Z) (l : list Z) : y ∈ l → y ≤ foldr Z.max x l.
Proof.
  induction l as [|z l IH]; simpl; [by intros ?%elem_of_nil|].
  intros [->|Hin]%elem_of_cons; [lia|]. specialize (IH Hin). lia.
Qed.

Lemma max_order_upper d project_id k m :
  milestones d !! k = Some m →
  Milestone.project m = project_id →
  ∃ top, max_order d project_id = Some top ∧ Milestone.order m ≤ top.
Proof.
  intros Hk Hproject. unfold max_order.
  assert (Milestone.order m
          ∈ map (λ kv : Z * Milestone.t, Milestone.order kv.2)
              (project_milestones d project_id)) as Hin.
  { apply list_elem_of_In, in_map_iff. exists (k, m). split; [done|].
    unfold project_milestones. apply filter_In. split.
    - apply list_elem_of_In, elem_of_map_to_list. exact Hk.
    - simpl. by apply bool_decide_eq_true. }
  destruct (map _ (project_milestones d project_id)) as [|o os];
    [by apply elem_of_nil in Hin|].
  eexists. split; [reflexivity|].
  apply elem_of_cons in Hin as [->|Hin]; [apply foldr_max_ge|].
  by apply foldr_max_ge_elem.
Qed.

Lemma max_order_none d project_id :
  (∀ k m, milestones d !! k = Some m → Milestone.project m ≠ project_id) →
  max_order d project_id = None.
Proof.
  intros Hnone. unfold max_order.
  destruct (project_milestones d project_id) as [|[k m] l] eqn:Hl; [done|].
  exfalso.
  assert (In (k, m) (project_milestones d project_id)) as Hin
    by (rewrite Hl; left; done).
  unfold project_milestones in Hin. apply filter_In in Hin as [Hin Hp].
  simpl in Hp. apply bool_decide_eq_true in Hp.
  apply list_elem_of_In, elem_of_map_to_list in Hin. by eapply Hnone.
Qed.

(** X14. A milestone created for a project is put last: it is inserted
    under a fresh key, pending, with an [order] above the order of every
    milestone the project already has - and [order] 1 when it is the
    project's first. *)
Theorem new_milestone_is_last (pk_ : pk) (form : MilestoneForm) (d : DB)
    (project : Project.t) :
  projects d !! pk_ = Some project →
  let done := CreateMilestoneView_form_valid pk_ form (request_on d) in
  ∃ m, done.1 = Ok (Redirect "projects:workspace")
       ∧ milestones d !! next_pk (milestones d) = None
       ∧ milestones (store done.2) = <[next_pk (milestones d) := m]> (milestones d)
       ∧ Milestone.project m = pk_
       ∧ Milestone.status m = m_pending
       ∧ (∀ k m0, milestones d !! k = Some m0 → Milestone.project m0 = pk_ →
                  Milestone.order m0 < Milestone.order m)
       ∧ ((∀ k m0, milestones d !! k = Some m0 → Milestone.project m0 ≠ pk_) →
          Milestone.order m = 1).
Proof.
  intros Hp. unfold CreateMilestoneView_form_valid. run_eff.
  rewrite Hp; simpl. eexists. split; [reflexivity|].
  split; [apply next_pk_fresh|]. split; [reflexivity|]. simpl.
  split; [done|]. split; [done|]. split.
  - intros k m0 Hk Hproject.
    destruct (max_order_upper d pk_ k m0 Hk Hproject) as (top & -> & Hle).
    unfold or_zero. case_bool_decide; lia.
  - intros Hnone. rewrite (max_order_none d pk_ Hnone). reflexivity.
Qed.

Lemma new_milestone_is_last_witness :
  let done :=
    CreateMilestoneView_form_valid 1 sample_milestone_form (request_on workspace_db) in
  ∃ m, done.1 = Ok (Redirect "projects:workspace")
       ∧ milestones workspace_db !! next_pk (milestones workspace_db) = None
       ∧ milestones (store done.2)
         = <[next_pk (milestones workspace_db) := m]> (milestones workspace_db)
       ∧ Milestone.project m = 1
       ∧ Milestone.status m = m_pending
       ∧ (∀ k m0, milestones workspace_db !! k = Some m0 → Milestone.project m0 = 1 →
                  Milestone.order m0 < Milestone.order m)
       ∧ ((∀ k m0, milestones workspace_db !! k = Some m0 → Milestone.project m0 ≠ 1) →
          Milestone.order m = 1).
Proof.
  apply (new_milestone_is_last 1 sample_milestone_form workspace_db
           (company_project in_progress)).
  vm_compute. reflexivity.
Defined.

(** ** Deliverables *)





(** ** The gate of the dashboard *)

(** X17. A student with a profile reaches the student dashboard exactly
    when the profile names a university, a student id and a university
    e-mail and the verification status is approved; every other case ends
    on the profile form or on the pending or rejected page. The gate
    writes nothing. *)
Theorem student_dashboard_gate (u : User.t) (d : DB) (student_pk : pk) (s : Student.t) :
  User.is_authenticated u = true →
  User.user_type u = student →
  student_profile d u = Some (student_pk, s) →
  let done := DashboardView_dispatch u (request_on d) in
  store done.2 = d
  ∧ (done.1 = Ok (Render "dashboard/student.html")
     ↔ is_Some (Student.university s)
       ∧ Student.student_id s ≠ ""
       ∧ Student.university_email s ≠ ""
       ∧ Student.verification_status s = v_approved).
Proof.
  intros Hauth Htype Hprofile.
  unfold DashboardView_dispatch. run_eff.
  rewrite Hauth; simpl. rewrite Htype; simpl. rewrite Hprofile; simpl.
  destruct (Student.university s) as [uni|]; simpl.
  - case_bool_decide as Hid; simpl; [split; [done|]; split; [done|tauto]|].
    case_bool_decide as Hemail; simpl; [split; [done|]; split; [done|tauto]|].
    destruct (Student.verification_status s); simpl;
      (split; [done|]); split; try done; try (intros (_ & _ & _ & ?); done);
      intros _; repeat split; try done; by eexists.
  - split; [done|]. split; [done|]. intros ([? ?] & _); done.
Qed.

Lemma student_dashboard_gate_witness :
  let done := DashboardView_dispatch student_user (request_on sample_db) in
  store done.2 = sample_db
  ∧ (done.1 = Ok (Render "dashboard/student.html")
     ↔ is_Some (Student.university sample_student)
       ∧ Student.student_id sample_student ≠ ""
       ∧ Student.university_email sample_student ≠ ""
       ∧ Student.verification_status sample_student = v_approved).
Proof.
  apply (student_dashboard_gate student_user sample_db 1 sample_student
           eq_refl eq_refl eq_refl).
Defined.

(** ** Editing a student profile *)



(** ** Who manages milestones and deliverables *)


(** ** Who manages milestones and deliverables *)

Lemma review_deliverable_needs_poster now u post pk_ deliverable_id d :
  let done := ReviewDeliverableView now u post pk_ deliverable_id (request_on d) in
  (∃ r, done.1 = Ok r) ∨ store done.2 ≠ d →
  ∃ dl p, deliverables d !! deliverable_id = Some dl
          ∧ projects d !! Deliverable.project dl = Some p
          ∧ poster_of_project d u p.
Proof.
  unfold ReviewDeliverableView, ReviewDeliverableView_test_func, poster_test,
    poster_of_project.
  run_eff.
  destruct (User.is_authenticated u); simpl; [|intros [[r H]|H]; done].
  destruct (deliverables d !! deliverable_id) as [dl|] eqn:Hdl; simpl;
    [|intros [[r H]|H]; done].
  destruct (User.user_type u) eqn:Htype; simpl; [intros [[r H]|H]; done|..].
  - destruct (company_profile d u) as [profile|] eqn:Hprofile; simpl;
      [|intros [[r H]|H]; done].
    destruct (projects d !! Deliverable.project dl) as [p|] eqn:Hp; simpl;
      [|intros [[r H]|H]; done].
    destruct (Project.company p) as [cid|] eqn:Hcid; simpl;
      [|intros [[r H]|H]; done].
    destruct (companies d !! cid) as [c|] eqn:Hc; simpl; [|intros [[r H]|H]; done].
    case_bool_decide as Howner; simpl; [|intros [[r H]|H]; done].
    intros _. exists dl, p. repeat split; try done. left. eauto 10.
  - destruct (university_profile d u) as [profile|] eqn:Hprofile; simpl;
      [|intros [[r H]|H]; done].
    destruct (projects d !! Deliverable.project dl) as [p|] eqn:Hp; simpl;
      [|intros [[r H]|H]; done].
    destruct (Project.posted_by_university p) eqn:Hposted; simpl;
      [|intros [[r H]|H]; done].
    destruct (universities d !! Project.university p) as [uni|] eqn:Huni; simpl;
      [|intros [[r H]|H]; done].
    case_bool_decide as Howner; simpl; [|intros [[r H]|H]; done].
    intros _. exists dl, p. repeat split; try done. right. eauto 10.
Qed.

Lemma create_milestone_needs_poster u pk_ form d :
  let done := CreateMilestoneView u pk_ form (request_on d) in
  (∃ r, done.1 = Ok r) ∨ store done.2 ≠ d →
  ∃ p, projects d !! pk_ = Some p ∧ poster_of_project d u p.
Proof.
  unfold CreateMilestoneView, CreateMilestoneView_test_func, poster_test,
    poster_of_project.
  run_eff.
  destruct (User.is_authenticated u); simpl; [|intros [[r H]|H]; done].
  destruct (projects d !! pk_) as [p|] eqn:Hp; simpl; [|intros [[r H]|H]; done].
  destruct (User.user_type u) eqn:Htype; simpl; [intros [[r H]|H]; done|..].
  - destruct (company_profile d u) as [profile|] eqn:Hprofile; simpl;
      [|intros [[r H]|H]; done].
    destruct (Project.company p) as [cid|] eqn:Hcid; simpl;
      [|intros [[r H]|H]; done].
    destruct (companies d !! cid) as [c|] eqn:Hc; simpl; [|intros [[r H]|H]; done].
    case_bool_decide as Howner; simpl; [|intros [[r H]|H]; done].
    intros _. exists p. repeat split; try done. left. eauto 10.
  - destruct (university_profile d u) as [profile|] eqn:Hprofile; simpl;
      [|intros [[r H]|H]; done].
    destruct (Project.posted_by_university p) eqn:Hposted; simpl;
      [|intros [[r H]|H]; done].
    destruct (universities d !! Project.university p) as [uni|] eqn:Huni; simpl;
      [|intros [[r H]|H]; done].
    case_bool_decide as Howner; simpl; [|intros [[r H]|H]; done].
    intros _. exists p. repeat split; try done. right. eauto 10.
Qed.

(** X19. Milestones are created and deliverables reviewed by the poster of
    the project only - the user of its company, or of the university that
    posted it itself: for anybody else, the university a company's project
    is bound to included, the two views answer no request and write
    nothing. *)
Theorem milestones_and_reviews_need_poster (u : User.t) (d : DB) :
  (∀ now post pk_ deliverable_id,
     let done := ReviewDeliverableView now u post pk_ deliverable_id (request_on d) in
     (∃ r, done.1 = Ok r) ∨ store done.2 ≠ d →
     ∃ dl p, deliverables d !! deliverable_id = Some dl
             ∧ projects d !! Deliverable.project dl = Some p
             ∧ poster_of_project d u p)
  ∧ (∀ pk_ form,
       let done := CreateMilestoneView u pk_ form (request_on d) in
       (∃ r, done.1 = Ok r) ∨ store done.2 ≠ d →
       ∃ p, projects d !! pk_ = Some p ∧ poster_of_project d u p).
Proof.
  split.
  - intros now post pk_ deliverable_id. apply review_deliverable_needs_poster.
  - intros pk_ form. apply create_milestone_needs_poster.
Qed.

Lemma milestones_and_reviews_need_poster_witness :
  ∃ p, projects workspace_db !! 1 = Some p ∧ poster_of_project workspace_db company_user p.
Proof.
  apply (proj2 (milestones_and_reviews_need_poster company_user workspace_db)
           1 sample_milestone_form).
  left. eexists. vm_compute. reflexivity.
Defined.

(** ** From the university's list of applications to the action *)



(** ** Comma-separated text fields *)

Lemma str_split_not_nil sep s : str_split sep s ≠ [].
Proof.
  destruct s as [|c s]; simpl; [done|].
  destruct (Ascii.eqb c sep); [done|]. destruct (str_split sep s); done.
Qed.

Lemma str_split_without_sep sep x : has_char sep x = false → str_split sep x = [x].
Proof.
  induction x as [|c x IH]; simpl; [done|].
  intros [Hc Hx]%orb_false_iff. rewrite Hc, (IH Hx). done.
Qed.

Lemma str_split_app sep x rest :
  has_char sep x = false →
  str_split sep (x ++ String sep rest) = x :: str_split sep rest.
Proof.
  induction x as [|c x IH]; simpl.
  - intros _. rewrite Ascii.eqb_refl. done.
  - intros [Hc Hx]%orb_false_iff. rewrite Hc, (IH Hx). done.
Qed.

Lemma str_split_concat sep l :
  l ≠ [] →
  Forall (λ x, has_char sep x = false) l →
  str_split sep (String.concat (String sep EmptyString) l) = l.
Proof.
  induction l as [|x l IH]; [done|]. intros _ Hall.
  apply Forall_cons in Hall as [Hx Hl].
  destruct l as [|y l].
  - simpl. by apply str_split_without_sep.
  - change (String.concat (String sep EmptyString) (x :: y :: l))
      with (x ++ String sep (String.concat (String sep EmptyString) (y :: l)))%string.
    rewrite str_split_app by done. f_equal. by apply IH.
Qed.

Lemma str_split_pieces sep s x : In x (str_split sep s) → has_char sep x = false.
Proof.
  revert x. induction s as [|c s IH]; simpl; intros x.
  - intros [<-|[]]. done.
  - destruct (Ascii.eqb c sep) eqn:Hc.
    + intros [<-|Hin]; [done|]. by apply IH.
    + pose proof (str_split_not_nil sep s) as Hne.
      destruct (str_split sep s) as [|piece rest]; [done|].
      intros [<-|Hin].
      * simpl. rewrite Hc. simpl. apply IH. by left.
      * apply IH. by right.
Qed.

Lemma has_char_lstrip c s : has_char c s = false → has_char c (lstrip s) = false.
Proof.
  induction s as [|c' s IH]; simpl; [done|].
  intros [Hc Hs]%orb_false_iff. destruct (is_space c'); simpl; [by apply IH|].
  by rewrite Hc, Hs.
Qed.

Lemma has_char_rstrip c s : has_char c s = false → has_char c (rstrip s) = false.
Proof.
  induction s as [|c' s IH]; simpl; [done|].
  intros [Hc Hs]%orb_false_iff. specialize (IH Hs).
  destruct (rstrip s) as [|c'' r]; simpl in *.
  - destruct (is_space c'); simpl; [done|]. by rewrite Hc.
  - by rewrite Hc, IH.
Qed.

Lemma rstrip_idempotent s : rstrip (rstrip s) = rstrip s.
Proof.
  induction s as [|c s IH]; simpl; [done|].
  destruct (rstrip s) as [|c' r] eqn:Hr; simpl.
  - destruct (is_space c) eqn:Hc; simpl; [done|]. by rewrite Hc.
  - simpl in IH. destruct (rstrip r) as [|c'' r'] eqn:Hr'.
    + destruct (is_space c'); [done|]. by rewrite IH.
    + by rewrite IH.
Qed.

Lemma lstrip_head s :
  lstrip s = EmptyString ∨ ∃ c s', lstrip s = String c s' ∧ is_space c = false.
Proof.
  induction s as [|c s IH]; simpl; [by left|].
  destruct (is_space c) eqn:Hc; [exact IH|]. right. eauto.
Qed.

Lemma lstrip_rstrip_lstrip s : lstrip (rstrip (lstrip s)) = rstrip (lstrip s).
Proof.
  destruct (lstrip_head s) as [->|(c & s' & -> & Hc)]; [done|].
  simpl. destruct (rstrip s'); simpl; rewrite ?Hc; simpl; rewrite ?Hc; done.
Qed.

Lemma strip_idempotent s : strip (strip s) = strip s.
Proof.
  unfold strip. rewrite lstrip_rstrip_lstrip. apply rstrip_idempotent.
Qed.

(** X21. The entries the comma-list readers return are clean: none is
    empty, none contains a comma, and none begins or ends with white
    space - whatever text was stored, however it was typed. *)
Theorem comma_list_entries_are_clean (s : string) (x : string) :
  In x (comma_list s) → clean_entry x = true.
Proof.
  unfold comma_list, clean_entry. intros [Hin Hne]%filter_In.
  apply in_map_iff in Hin as (piece & <- & Hpiece).
  rewrite Hne. simpl. apply andb_true_iff. split.
  - apply negb_true_iff. unfold strip.
    apply has_char_rstrip, has_char_lstrip. by eapply str_split_pieces.
  - apply bool_decide_eq_true. apply strip_idempotent.
Qed.

Lemma comma_list_entries_are_clean_witness : clean_entry "Django" = true.
Proof.
  apply (comma_list_entries_are_clean " Python, Django ,,React ,  " "Django").
  vm_compute. auto.
Defined.

Lemma comma_list_of_clean_entries l :
  l ≠ [] →
  Forall (λ x, clean_entry x = true) l →
  comma_list (String.concat "," l) = l.
Proof.
  intros Hne Hall. unfold comma_list.
  rewrite str_split_concat; [|done|].
  - induction Hall as [|x l Hx Hl IH]; [done|]. simpl.
    unfold clean_entry in Hx.
    apply andb_true_iff in Hx as [[Hx1 Hx2]%andb_true_iff Hx3].
    apply bool_decide_eq_true in Hx3. rewrite Hx3, Hx1. simpl. f_equal.
    destruct l as [|y l]; [done|]. by apply IH.
  - eapply Forall_impl; [exact Hall|]. intros x Hx. unfold clean_entry in Hx.
    apply andb_true_iff in Hx as [[_ Hx2]%andb_true_iff _].
    by apply negb_true_iff in Hx2.
Qed.

Lemma concat_of_clean_entries_not_empty x l :
  clean_entry x = true → String.concat "," (x :: l) ≠ "".
Proof.
  unfold clean_entry. intros [[Hx _]%andb_true_iff _]%andb_true_iff.
  apply negb_true_iff, bool_decide_eq_false in Hx.
  destruct x as [|c x]; [done|]. destruct l; simpl; done.
Qed.

Lemma selection_round_trip l :
  Forall (λ x, clean_entry x = true) l →
  Project_get_eligible_list (ProjectForm_save_selection l) = l.
Proof.
  intros Hall. unfold Project_get_eligible_list, ProjectForm_save_selection.
  destruct l as [|x l]; [done|].
  apply Forall_cons in Hall as Hall'. destruct Hall' as [Hx _].
  rewrite bool_decide_eq_false_2 by by apply concat_of_clean_entries_not_empty.
  by apply comma_list_of_clean_entries.
Qed.

(** X22. What the project form stores for the eligible departments and the
    eligible years is read back unchanged: for any selection among the
    form's department choices, or among its year choices, in any order and
    with repetitions, the list read from the stored text is the
    selection; an empty selection is stored as the empty text and read
    back as the empty list. *)
Theorem eligible_selection_round_trip (selection : list string) :
  (∀ x, In x selection → In x DEPARTMENT_CHOICES)
  ∨ (∀ x, In x selection → In x YEAR_CHOICES) →
  Project_get_eligible_list (ProjectForm_save_selection selection) = selection.
Proof.
  intros Hchoices. apply selection_round_trip. apply Forall_forall.
  intros x Hx%list_elem_of_In.
  assert (In x DEPARTMENT_CHOICES ∨ In x YEAR_CHOICES) as Hin
    by (destruct Hchoices as [H|H]; [left|right]; by apply H).
  assert (forallb clean_entry DEPARTMENT_CHOICES = true) as Hd
    by (vm_compute; reflexivity).
  assert (forallb clean_entry YEAR_CHOICES = true) as Hy
    by (vm_compute; reflexivity).
  rewrite forallb_forall in Hd, Hy. destruct Hin; auto.
Qed.

Lemma eligible_selection_round_trip_witness :
  Project_get_eligible_list (ProjectForm_save_selection ["mca"; "design"; "mca"])
  = ["mca"; "design"; "mca"].
Proof.
  apply (eligible_selection_round_trip ["mca"; "design"; "mca"]).
  left. intros x [<-|[<-|[<-|[]]]]; vm_compute; auto 20.
Defined.

Lemma filter_map_strip (pieces : list string) :
  map strip (List.filter (λ x, negb (bool_decide (strip x = ""))) pieces)
  = List.filter (λ x, negb (bool_decide (x = ""))) (map strip pieces).
Proof.
  induction pieces as [|x pieces IH]; simpl; [done|].
  destruct (negb (bool_decide (strip x = ""))); simpl; by rewrite IH.
Qed.

Lemma flat_map_constant {A B} (l : list A) (r : list B) :
  flat_map (λ _, r) l = concat (replicate (length l) r).
Proof. induction l as [|x l IH]; simpl; [done|]. by rewrite IH. Qed.

Lemma length_concat_replicate {A} (n : nat) (r : list A) :
  length (concat (replicate n r)) = (n * length r)%nat.
Proof.
  induction n as [|n IH]; simpl; [done|]. rewrite length_app, IH. done.
Qed.

(** X23. The list of preferred domains repeats itself: it is the list of
    the clean, non-blank entries of the stored text - what the skills
    reader would return for it - written out once for each of these
    entries, so a text with [n] domains is read as a list of [n * n]. *)
Theorem preferred_domains_are_repeated (s : Student.t) :
  let domains := comma_list (Student.preferred_domains s) in
  Student_get_preferred_domains_list s
  = concat (replicate (length domains) domains)
  ∧ length (Student_get_preferred_domains_list s)
    = (length domains * length domains)%nat.
Proof.
  intros domains.
  assert (Student_get_preferred_domains_list s
          = concat (replicate (length domains) domains)) as Heq.
  { unfold Student_get_preferred_domains_list.
    rewrite flat_map_constant, filter_map_strip.
    fold (comma_list (Student.preferred_domains s)). fold domains.
    f_equal. f_equal.
    rewrite <- (length_map strip), filter_map_strip. reflexivity. }
  split; [exact Heq|]. rewrite Heq. apply length_concat_replicate.
Qed.

(** Two preferred domains are read as four entries, where the same text as
    skills is read as two. *)
Example preferred_domains_of_two :
  let s := Student.set_rejection_reason "" sample_student in
  let s :=
    {| Student.user := Student.user s; Student.university := Student.university s;
       Student.student_id := Student.student_id s;
       Student.department := Student.department s; Student.year := Student.year s;
       Student.skills := "Coding, Design";
       Student.preferred_domains := "Coding, Design";
       Student.is_verified := Student.is_verified s;
       Student.verification_status := Student.verification_status s;
       Student.university_email := Student.university_email s;
       Student.rejection_reason := Student.rejection_reason s;
       Student.verified_by := Student.verified_by s;
       Student.verified_at := Student.verified_at s |} in
  Student_get_skills_list s = ["Coding"; "Design"]
  ∧ Student_get_preferred_domains_list s = ["Coding"; "Design"; "Coding"; "Design"].
Proof. vm_compute. split; reflexivity. Qed.
